(** * smite.py: the SmiteClient session manager, embedded and verified

    A shallow embedding of [src/smite.py]: the client object, its session
    slot, the per-request signature (MD5 over the credentials, the method
    name and a UTC timestamp), URL assembly, and the handling of transport
    answers.  The wall clock and the network are the two oracles of the
    model; everything the client does with their answers is a function. *)

From Stdlib Require Import ZArith NArith List String Ascii Bool Lia.
From Stdlib Require Import Strings.Byte DecimalString SpecFloat.
Import ListNotations.

Set Warnings "-register-all".
Local Open Scope string_scope.
Local Open Scope Z_scope.

(* ================================================================== *)
(** ** Python strings and bytes *)

(** A Python [str] is represented by the bytes of its UTF-8 encoding, as a
    [string]; [s.encode('utf-8')] is then the byte list of the
    representation. *)
Definition encode_utf8 (s : string) : list byte := list_byte_of_string s.

(** [needle in s] for two strings: [needle] occurs as a substring. *)
Fixpoint str_contains (needle s : string) : bool :=
  String.prefix needle s ||
  match s with
  | EmptyString => false
  | String _ rest => str_contains needle rest
  end.

(** [s.replace(' ', '%20')]. *)
Fixpoint replace_spaces (s : string) : string :=
  match s with
  | EmptyString => EmptyString
  | String c rest =>
      if Ascii.eqb c " "%char then "%20" ++ replace_spaces rest
      else String c (replace_spaces rest)
  end.

(** [str(n)] for an integer. *)
Definition str_of_Z (z : Z) : string := NilZero.string_of_int (Z.to_int z).

(** Decimal digits of [n], left-padded with zeros to [width] characters
    (the [%m], [%d], [%H], [%M], [%S] and [%Y] fields of [strftime]). *)
Fixpoint zeros (k : nat) : string :=
  match k with
  | O => EmptyString
  | S k' => String "0"%char (zeros k')
  end.

Definition zero_padded (width : nat) (n : N) : string :=
  let digits := NilZero.string_of_uint (N.to_uint n) in
  zeros (width - String.length digits) ++ digits.

(* ================================================================== *)
(** ** hashlib.md5 (RFC 1321) on 32-bit words carried in [Z] *)

Module MD5.

Definition mask32 : Z := 0xFFFFFFFF.

Definition add32 (a b : Z) : Z := Z.land (a + b) mask32.

Definition not32 (a : Z) : Z := Z.lxor a mask32.

Definition rotl32 (x : Z) (n : Z) : Z :=
  Z.land (Z.lor (Z.shiftl x n) (Z.shiftr x (32 - n))) mask32.

(** The sine table: [K i = floor (2^32 * abs (sin (i + 1)))]. *)
Definition K : list Z :=
  [ 0xd76aa478; 0xe8c7b756; 0x242070db; 0xc1bdceee;
    0xf57c0faf; 0x4787c62a; 0xa8304613; 0xfd469501;
    0x698098d8; 0x8b44f7af; 0xffff5bb1; 0x895cd7be;
    0x6b901122; 0xfd987193; 0xa679438e; 0x49b40821;
    0xf61e2562; 0xc040b340; 0x265e5a51; 0xe9b6c7aa;
    0xd62f105d; 0x02441453; 0xd8a1e681; 0xe7d3fbc8;
    0x21e1cde6; 0xc33707d6; 0xf4d50d87; 0x455a14ed;
    0xa9e3e905; 0xfcefa3f8; 0x676f02d9; 0x8d2a4c8a;
    0xfffa3942; 0x8771f681; 0x6d9d6122; 0xfde5380c;
    0xa4beea44; 0x4bdecfa9; 0xf6bb4b60; 0xbebfbc70;
    0x289b7ec6; 0xeaa127fa; 0xd4ef3085; 0x04881d05;
    0xd9d4d039; 0xe6db99e5; 0x1fa27cf8; 0xc4ac5665;
    0xf4292244; 0x432aff97; 0xab9423a7; 0xfc93a039;
    0x655b59c3; 0x8f0ccc92; 0xffeff47d; 0x85845dd1;
    0x6fa87e4f; 0xfe2ce6e0; 0xa3014314; 0x4e0811a1;
    0xf7537e82; 0xbd3af235; 0x2ad7d2bb; 0xeb86d391 ].

(** Per-step left-rotation amounts. *)
Definition rotations : list Z :=
  [ 7; 12; 17; 22; 7; 12; 17; 22; 7; 12; 17; 22; 7; 12; 17; 22;
    5; 9; 14; 20; 5; 9; 14; 20; 5; 9; 14; 20; 5; 9; 14; 20;
    4; 11; 16; 23; 4; 11; 16; 23; 4; 11; 16; 23; 4; 11; 16; 23;
    6; 10; 15; 21; 6; 10; 15; 21; 6; 10; 15; 21; 6; 10; 15; 21 ].

Definition regs : Type := (Z * Z * Z * Z)%type.

Definition init : regs := (0x67452301, 0xefcdab89, 0x98badcfe, 0x10325476).

(** Message padding: a single 1 bit, zeros up to 56 mod 64 bytes, then the
    bit length as a 64-bit little-endian integer. *)
Definition le_bytes (count : nat) (x : Z) : list Z :=
  map (fun i => Z.land (Z.shiftr x (8 * Z.of_nat i)) 0xFF) (seq 0 count).

Definition pad (msg : list Z) : list Z :=
  let len := Z.of_nat (List.length msg) in
  let k := Z.to_nat ((55 - len) mod 64) in
  msg ++ [0x80] ++ repeat 0 k ++ le_bytes 8 (Z.land (8 * len) 0xFFFFFFFFFFFFFFFF).

(** A little-endian 32-bit word from four bytes. *)
Definition word_of (bs : list Z) : Z :=
  fold_right (fun b acc => b + 256 * acc) 0 (firstn 4 bs).

Fixpoint words (count : nat) (bs : list Z) : list Z :=
  match count with
  | O => []
  | S count' => word_of bs :: words count' (skipn 4 bs)
  end.

(** One of the 64 steps on a 16-word block [M]. *)
Definition step (M : list Z) (r : regs) (i : nat) : regs :=
  let '(a, b, c, d) := r in
  let round := Nat.div i 16 in
  let f :=
    match round with
    | 0%nat => Z.lor (Z.land b c) (Z.land (not32 b) d)
    | 1%nat => Z.lor (Z.land d b) (Z.land (not32 d) c)
    | 2%nat => Z.lxor (Z.lxor b c) d
    | _ => Z.lxor c (Z.lor b (not32 d))
    end in
  let g :=
    match round with
    | 0%nat => i
    | 1%nat => Nat.modulo (5 * i + 1) 16
    | 2%nat => Nat.modulo (3 * i + 5) 16
    | _ => Nat.modulo (7 * i) 16
    end in
  let f' := add32 (add32 (add32 f a) (nth i K 0)) (nth g M 0) in
  (d, add32 b (rotl32 f' (nth i rotations 0)), b, c).

Definition block (r : regs) (M : list Z) : regs :=
  let '(a, b, c, d) := r in
  let '(a', b', c', d') := fold_left (step M) (seq 0 64) r in
  (add32 a a', add32 b b', add32 c c', add32 d d').

Fixpoint blocks (count : nat) (bs : list Z) (r : regs) : regs :=
  match count with
  | O => r
  | S count' => blocks count' (skipn 64 bs) (block r (words 16 bs))
  end.

(** The 16 digest bytes. *)
Definition digest (msg : list byte) : list Z :=
  let padded := pad (map (fun b => Z.of_N (Byte.to_N b)) msg) in
  let '(a, b, c, d) := blocks (Nat.div (List.length padded) 64) padded init in
  le_bytes 4 a ++ le_bytes 4 b ++ le_bytes 4 c ++ le_bytes 4 d.

Definition hex_chars : list ascii :=
  list_ascii_of_string "0123456789abcdef".

Definition hex_digit (n : Z) : ascii := nth (Z.to_nat n) hex_chars "0"%char.

(** [hashlib.md5(msg).hexdigest()]. *)
Definition hexdigest (msg : list byte) : string :=
  string_of_list_ascii
    (flat_map (fun b => [hex_digit (Z.shiftr b 4); hex_digit (Z.land b 0xF)])
       (digest msg)).

End MD5.

(* ================================================================== *)
(** ** Python values *)

(** What [json.loads] produces.  A [dict] is kept as the list of its items,
    in insertion order, each key once. *)
Inductive json : Type :=
| JNull                                   (* None *)
| JBool (b : bool)
| JInt (z : Z)
| JFloat (f : spec_float)
| JStr (s : string)
| JArr (items : list json)
| JObj (members : list (string * json)).

(** Python truth value: [bool(v)]. *)
Definition truthy (v : json) : bool :=
  match v with
  | JNull => false
  | JBool b => b
  | JInt z => negb (z =? 0)
  | JFloat (S754_zero _) => false
  | JFloat _ => true
  | JStr s => negb (String.eqb s "")
  | JArr items => match items with [] => false | _ => true end
  | JObj members => match members with [] => false | _ => true end
  end.

(** [d.get(key)] on the items of a dict: the value, or None. *)
Fixpoint dict_get (key : string) (members : list (string * json)) : json :=
  match members with
  | [] => JNull
  | (k, v) :: rest => if String.eqb k key then v else dict_get key rest
  end.

Definition dict_has_key (key : string) (members : list (string * json)) : bool :=
  existsb (fun kv => String.eqb (fst kv) key) members.

(** [v == needle] for a string [needle]: only an equal str compares equal. *)
Definition eq_str (needle : string) (v : json) : bool :=
  match v with
  | JStr s => String.eqb s needle
  | _ => false
  end.

(** The three platform endpoints ([class Endpoint(Enum)]). *)
Inductive Endpoint : Type := PC | PS4 | XBOX.

Definition Endpoint_value (e : Endpoint) : string :=
  match e with
  | PC => "http://api.smitegame.com/smiteapi.svc/"
  | PS4 => "http://api.ps4.smitegame.com/smiteapi.svc/"
  | XBOX => "http://api.xbox.smitegame.com/smiteapi.svc/"
  end.

Definition Endpoint_name (e : Endpoint) : string :=
  match e with PC => "PC" | PS4 => "PS4" | XBOX => "XBOX" end.

(** Arguments a caller passes to the client's methods. *)
Inductive pyval : Type :=
| PNone
| PInt (z : Z)
| PStr (s : string)
| PEndpoint (e : Endpoint).

(** [str(v)]. *)
Definition py_str (v : pyval) : string :=
  match v with
  | PNone => "None"
  | PInt z => str_of_Z z
  | PStr s => s
  | PEndpoint e => "Endpoint." ++ Endpoint_name e
  end.

(** [datetime.utcnow()]. *)
Record datetime : Type := {
  year : N; month : N; day : N; hour : N; minute : N; second : N
}.

(** [dt.strftime("%Y%m%d%H%M%S")]. *)
Definition strftime (dt : datetime) : string :=
  zero_padded 4 (year dt) ++ zero_padded 2 (month dt) ++ zero_padded 2 (day dt)
  ++ zero_padded 2 (hour dt) ++ zero_padded 2 (minute dt)
  ++ zero_padded 2 (second dt).

(* ================================================================== *)
(** ** Exceptions, the transport and the log *)

Inductive exn : Type :=
| SmiteError (msg : string)
| NoResultError (msg : string)           (* a subclass of SmiteError *)
| HTTPError (code : Z)                   (* urllib.error.HTTPError *)
| URLError                               (* urllib.error.URLError, not HTTP *)
| ValueError                             (* UnicodeDecodeError, JSONDecodeError *)
| TypeError
| AttributeError
| UnboundLocalError (variable : string).

(** What [urlopen(url).read()] hands back: bytes that decode as UTF-8 and
    parse as JSON, or bytes that do not. *)
Inductive body : Type :=
| Body_json (j : json)
| Body_garbage.

(** How the transport answers one [urlopen]. *)
Inductive response : Type :=
| Resp_body (b : body)
| Resp_HTTPError (code : Z)
| Resp_URLError.

(** The two oracles: the [n]-th reading of the clock, and the answer to
    the [n]-th [urlopen], which may depend on the URL asked. *)
Record world : Type := {
  utcnow : nat -> datetime;
  urlopen : nat -> string -> response
}.

(** The place in the source that calls [urlopen]. *)
Inductive site : Type :=
| In_create_session | In_test_session | In_make_request | In_ping.

(** Calls of [logger]. *)
Inductive log_record : Type :=
| Log_init (dev_id auth_key lang : string)          (* debug, __init__ *)
| Log_creating_session                              (* info, _make_request *)
| Log_built_url (methodname url : string)           (* debug, _make_request *)
| Log_testing_session (url : string)                (* debug, _test_session *)
| Log_endpoint_switch (url : string)                (* debug, _switch_endpoint *)
| Log_smite_error (msg : string).                   (* error, SmiteError.__init__ *)

(** What the outside sees of a run: log records, each [urlopen] with the
    URL asked and the transport's answer, and printed tracebacks. *)
Inductive event : Type :=
| EvLog (r : log_record)
| EvUrlopen (at_site : site) (url : string) (answer : response)
| EvPrintExc (code : Z).                            (* traceback.print_exc() *)

(* ================================================================== *)
(** ** The client object and the monad of its methods *)

Record client : Type := {
  dev_id : string;
  auth_key : string;
  lang : pyval;
  _session : json;
  _BASE_URL : string
}.

(** The state a method runs in: the object, how often the clock was read,
    how many requests went out, and the events so far (oldest first). *)
Record state : Type := {
  self : client;
  ticks : nat;
  fetched : nat;
  trace : list event
}.

Inductive result (A : Type) : Type :=
| Return (a : A)
| Raise (e : exn).
Arguments Return {A} a.
Arguments Raise {A} e.

Definition M (A : Type) : Type := state -> result A * state.

Definition ret {A} (a : A) : M A := fun s => (Return a, s).

Definition raise {A} (e : exn) : M A := fun s => (Raise e, s).

Definition bind {A B} (m : M A) (k : A -> M B) : M B :=
  fun s =>
    match m s with
    | (Return a, s') => k a s'
    | (Raise e, s') => (Raise e, s')
    end.

Notation "x <- m ;; k" := (bind m (fun x => k))
  (at level 61, m at next level, right associativity).
Notation "m ;;; k" := (bind m (fun _ => k))
  (at level 61, right associativity).

(** [try: m  except urllib.error.HTTPError as e: handler e.code]. *)
Definition try_except_HTTPError {A} (m : M A) (handler : Z -> M A) : M A :=
  fun s =>
    match m s with
    | (Raise (HTTPError code), s') => handler code s'
    | other => other
    end.

Definition get_self : M client := fun s => (Return (self s), s).

Definition emit (e : event) : M unit :=
  fun s => (Return tt, {| self := self s; ticks := ticks s;
                          fetched := fetched s; trace := trace s ++ [e] |}).

Definition set_session (j : json) : M unit :=
  fun s =>
    let c := self s in
    (Return tt,
     {| self := {| dev_id := dev_id c; auth_key := auth_key c; lang := lang c;
                   _session := j; _BASE_URL := _BASE_URL c |};
        ticks := ticks s; fetched := fetched s; trace := trace s |}).

Definition set_BASE_URL (u : string) : M unit :=
  fun s =>
    let c := self s in
    (Return tt,
     {| self := {| dev_id := dev_id c; auth_key := auth_key c; lang := lang c;
                   _session := _session c; _BASE_URL := u |};
        ticks := ticks s; fetched := fetched s; trace := trace s |}).

(** [raise SmiteError(msg)] and [raise NoResultError(msg)]: the constructor
    logs the message at error level. *)
Definition raise_SmiteError {A} (msg : string) : M A :=
  emit (EvLog (Log_smite_error msg)) ;;; raise (SmiteError msg).

Definition raise_NoResultError {A} (msg : string) : M A :=
  emit (EvLog (Log_smite_error msg)) ;;; raise (NoResultError msg).

(** A computation that touches no state: its value or its exception. *)
Definition lift {A} (r : result A) : M A := fun s => (r, s).

(** [obj.get(key)]: only a dict has the method. *)
Definition py_get (obj : json) (key : string) : result json :=
  match obj with
  | JObj members => Return (dict_get key members)
  | _ => Raise AttributeError
  end.

(** [needle in container]. *)
Definition py_in (needle : string) (container : json) : result bool :=
  match container with
  | JStr s => Return (str_contains needle s)
  | JArr items => Return (existsb (eq_str needle) items)
  | JObj members => Return (dict_has_key needle members)
  | _ => Raise TypeError
  end.

(** [sep.join(items)]: every item has to be a str. *)
Fixpoint all_str (items : list json) : option (list string) :=
  match items with
  | [] => Some []
  | JStr s :: rest =>
      match all_str rest with
      | Some ss => Some (s :: ss)
      | None => None
      end
  | _ :: _ => None
  end.

Definition str_join (sep : string) (items : list json) : result string :=
  match all_str items with
  | Some ss => Return (String.concat sep ss)
  | None => Raise TypeError
  end.

(** [json.loads(html.decode('utf-8'))], where the local [html] is bound only
    if the [try] block assigned it. *)
Definition json_loads_decode (html : option body) : result json :=
  match html with
  | None => Raise (UnboundLocalError "html")
  | Some (Body_json j) => Return j
  | Some Body_garbage => Raise ValueError
  end.

Definition print_exc (code : Z) : M unit := emit (EvPrintExc code).

(* ================================================================== *)
(** ** class SmiteClient *)

Module SmiteClient.

Definition _RESPONSE_FORMAT : string := "Json".

Section Methods.

Variable W : world.

(** [datetime.utcnow()]: the next reading of the clock. *)
Definition datetime_utcnow : M datetime :=
  fun s =>
    (Return (utcnow W (ticks s)),
     {| self := self s; ticks := S (ticks s);
        fetched := fetched s; trace := trace s |}).

(** [urlopen(url).read()]: the next answer of the transport. *)
Definition urlopen_read (at_site : site) (url : string) : M body :=
  fun s =>
    let answer := urlopen W (fetched s) url in
    let s' := {| self := self s; ticks := ticks s;
                 fetched := S (fetched s);
                 trace := trace s ++ [EvUrlopen at_site url answer] |} in
    match answer with
    | Resp_body b => (Return b, s')
    | Resp_HTTPError code => (Raise (HTTPError code), s')
    | Resp_URLError => (Raise URLError, s')
    end.

Definition _create_now_timestamp : M string :=
  datime_now <- datetime_utcnow ;;
  ret (strftime datime_now).

Definition _create_signature (methodname : string) : M string :=
  now <- _create_now_timestamp ;;
  c <- get_self ;;
  ret (MD5.hexdigest
         (encode_utf8 (dev_id c) ++ encode_utf8 methodname
          ++ encode_utf8 (auth_key c) ++ encode_utf8 now)%list).

Definition _create_session : M json :=
  signature <- _create_signature "createsession" ;;
  c <- get_self ;;
  timestamp <- _create_now_timestamp ;;
  let url := _BASE_URL c ++ "/createsessionJson/" ++ dev_id c ++ "/"
             ++ signature ++ "/" ++ timestamp in
  html <- try_except_HTTPError
            (h <- urlopen_read In_create_session url ;; ret (Some h))
            (fun code =>
               if code =? 404 then
                 raise_NoResultError
                   "Couldn't create session. API auth details may be incorrect."
               else print_exc code ;;; ret None) ;;
  lift (json_loads_decode html).

Definition _test_session (session : json) : M bool :=
  let methodname := "testsession" in
  timestamp <- _create_now_timestamp ;;
  signature <- _create_signature methodname ;;
  c <- get_self ;;
  session_id <- lift (py_get session "session_id") ;;
  path <- lift (str_join "/"
                  [JStr (methodname ++ _RESPONSE_FORMAT); JStr (dev_id c);
                   JStr signature; session_id; JStr timestamp]) ;;
  let url := _BASE_URL c ++ path in
  emit (EvLog (Log_testing_session url)) ;;;
  html <- try_except_HTTPError
            (h <- urlopen_read In_test_session url ;; ret (Some h))
            (fun code =>
               if code =? 404 then
                 raise_NoResultError
                   "Couldn't test session. API auth details may be incorrect."
               else print_exc code ;;; ret None) ;;
  reply <- lift (json_loads_decode html) ;;
  lift (py_in "successful" reply).

Definition _build_request_url (methodname : string)
    (parameters : option (list pyval)) : M string :=
  signature <- _create_signature methodname ;;
  timestamp <- _create_now_timestamp ;;
  c <- get_self ;;
  session_id <- lift (py_get (_session c) "session_id") ;;
  let path := [JStr (methodname ++ _RESPONSE_FORMAT); JStr (dev_id c);
               JStr signature; session_id; JStr timestamp] in
  let path :=
    match parameters with
    | Some (p :: ps) => (path ++ map (fun param => JStr (py_str param)) (p :: ps))%list
    | _ => path
    end in
  joined <- lift (str_join "/" path) ;;
  ret (_BASE_URL c ++ joined).

Definition _make_request (methodname : string)
    (parameters : option (list pyval)) : M json :=
  c <- get_self ;;
  renew <- (if negb (truthy (_session c)) then ret true
            else alive <- _test_session (_session c) ;; ret (negb alive)) ;;
  (if renew : bool then
     emit (EvLog Log_creating_session) ;;;
     session <- _create_session ;;
     set_session session
   else ret tt) ;;;
  url <- _build_request_url methodname parameters ;;
  let url := replace_spaces url in
  emit (EvLog (Log_built_url methodname url)) ;;;
  html <- try_except_HTTPError
            (h <- urlopen_read In_make_request url ;; ret (Some h))
            (fun code =>
               if code =? 404 then
                 raise_NoResultError
                   "Request invalid. API auth details may be incorrect."
               else if code =? 400 then
                 raise_NoResultError "Request invalid. Bad request."
               else print_exc code ;;; ret None) ;;
  jsonfinal <- lift (json_loads_decode html) ;;
  if negb (truthy jsonfinal) then
    raise_NoResultError "Request was successful, but returned no data."
  else ret jsonfinal.

(** [_switch_endpoint(endpoint)]: [isinstance(endpoint, Endpoint)] holds of
    the enum's members only. *)
Definition _switch_endpoint (endpoint : pyval) : M unit :=
  match endpoint with
  | PEndpoint e =>
      set_BASE_URL (Endpoint_value e) ;;;
      c <- get_self ;;
      emit (EvLog (Log_endpoint_switch (_BASE_URL c)))
  | _ => raise_SmiteError "You need to use an enum to switch endpoints"
  end.

Definition ping : M json :=
  c <- get_self ;;
  let url := _BASE_URL c ++ "/pingJson" in
  html <- urlopen_read In_ping url ;;
  lift (json_loads_decode (Some html)).

(** The method catalog. *)
Definition get_data_used : M json := _make_request "getdataused" None.

Definition get_demo_details (match_id : pyval) : M json :=
  _make_request "getdemodetails" (Some [match_id]).

Definition get_gods : M json :=
  c <- get_self ;; _make_request "getgods" (Some [lang c]).

Definition get_god_skins (god_id : pyval) : M json :=
  _make_request "getgodskins" (Some [god_id]).

Definition get_items : M json :=
  c <- get_self ;; _make_request "getitems" (Some [lang c]).

Definition get_god_recommended_items (god_id : pyval) : M json :=
  _make_request "getgodrecommendeditems" (Some [god_id]).

Definition get_esports_proleague_details : M json :=
  _make_request "getesportsproleaguedetails" None.

Definition get_top_matches : M json := _make_request "gettopmatches" None.

Definition get_match_details (match_id : pyval) : M json :=
  _make_request "getmatchdetails" (Some [match_id]).

Definition get_match_ids_by_queue (queue date hour : pyval) : M json :=
  _make_request "getmatchidsbyqueue" (Some [queue; date; hour]).

Definition get_league_leaderboard (queue tier season : pyval) : M json :=
  _make_request "getleagueleaderboard" (Some [queue; tier; season]).

Definition get_league_seasons (queue : pyval) : M json :=
  _make_request "getleagueseasons" (Some [queue]).

Definition get_team_details (clan_id : pyval) : M json :=
  _make_request "getteamdetails" (Some [clan_id]).

Definition get_team_match_history (clan_id : pyval) : M json :=
  _make_request "getteammatchhistory" (Some [clan_id]).

Definition get_team_players (clan_id : pyval) : M json :=
  _make_request "getteamplayers" (Some [clan_id]).

Definition search_teams (search_team : pyval) : M json :=
  _make_request "searchteams" (Some [search_team]).

Definition get_player (player_name : pyval) : M json :=
  _make_request "getplayer" (Some [player_name]).

Definition get_player_achievements (player_id : pyval) : M json :=
  _make_request "getplayerachievements" (Some [player_id]).

Definition get_player_status (player_name : pyval) : M json :=
  _make_request "getplayerstatus" (Some [player_name]).

Definition get_friends (player : pyval) : M json :=
  _make_request "getfriends" (Some [player]).

Definition get_god_ranks (player : pyval) : M json :=
  _make_request "getgodranks" (Some [player]).

Definition get_match_history (player : pyval) : M json :=
  _make_request "getmatchhistory" (Some [PStr (py_str player)]).

Definition get_match_player_details (match_id : pyval) : M json :=
  _make_request "getmatchplayerdetails" (Some [match_id]).

Definition get_motd : M json := _make_request "getmotd" None.

Definition get_queue_stats (player queue : pyval) : M json :=
  _make_request "getqueuestats"
    (Some [PStr (py_str player); PStr (py_str queue)]).

End Methods.

(** [SmiteClient(dev_id, auth_key, lang)]: the fresh object. *)
Definition __init__ (dev_id auth_key lang : pyval) : client :=
  {| dev_id := py_str dev_id; auth_key := py_str auth_key; lang := lang;
     _session := JNull; _BASE_URL := Endpoint_value PC |}.

End SmiteClient.

(* ================================================================== *)
(** ** Vocabulary of the specification *)

(** The signature as the specification words it: the hex MD5 digest of the
    UTF-8 bytes of [devId + methodName + authKey + timestamp]. *)
Definition spec_signature (devId methodName authKey timestamp : string) : string :=
  MD5.hexdigest (encode_utf8 (devId ++ methodName ++ authKey ++ timestamp)).

(** A character of [0-9a-f]. *)
Definition is_lower_hex (c : ascii) : bool :=
  let n := nat_of_ascii c in
  ((48 <=? n)%nat && (n <=? 57)%nat) || ((97 <=? n)%nat && (n <=? 102)%nat).

(** The state after one more reading of the clock. *)
Definition tick (s : state) : state :=
  {| self := self s; ticks := S (ticks s);
     fetched := fetched s; trace := trace s |}.

(** The events a run from [s] to [s'] added to the trace. *)
Definition new_events (s s' : state) : list event :=
  skipn (List.length (trace s)) (trace s').

(** The state after [dt] more readings of the clock, [df] more requests and
    the events [evs]. *)
Definition advance (s : state) (dt df : nat) (evs : list event) : state :=
  {| self := self s; ticks := (dt + ticks s)%nat;
     fetched := (df + fetched s)%nat; trace := trace s ++ evs |}.

(** The object with another session in its slot. *)
Definition with_session (j : json) (c : client) : client :=
  {| dev_id := dev_id c; auth_key := auth_key c; lang := lang c;
     _session := j; _BASE_URL := _BASE_URL c |}.

Definition is_urlopen (e : event) : bool :=
  match e with EvUrlopen _ _ _ => true | _ => false end.

(** The number of network round trips among some events. *)
Definition round_trips (evs : list event) : nat :=
  List.length (filter is_urlopen evs).

(** The state with another session stored in the object. *)
Definition store (j : json) (s : state) : state :=
  {| self := with_session j (self s); ticks := ticks s;
     fetched := fetched s; trace := trace s |}.

(** [str(param)] of each parameter ([if parameters: ...]). *)
Definition params_strs (parameters : option (list pyval)) : list string :=
  match parameters with
  | Some ps => map py_str ps
  | None => []
  end.

(** The two phases of [_make_request]: the session check with renewal
    (source lines 75 to 77, the specification's ensureSession), and the
    signed request itself (lines 79 to 94). *)
Definition ensure_session (W : world) : M unit :=
  c <- get_self ;;
  renew <- (if negb (truthy (_session c)) then ret true
            else alive <- SmiteClient._test_session W (_session c) ;;
                 ret (negb alive)) ;;
  if renew : bool then
    emit (EvLog Log_creating_session) ;;;
    session <- SmiteClient._create_session W ;;
    set_session session
  else ret tt.

Definition dispatch (W : world) (methodname : string)
    (parameters : option (list pyval)) : M json :=
  url <- SmiteClient._build_request_url W methodname parameters ;;
  let url := replace_spaces url in
  emit (EvLog (Log_built_url methodname url)) ;;;
  html <- try_except_HTTPError
            (h <- SmiteClient.urlopen_read W In_make_request url ;; ret (Some h))
            (fun code =>
               if code =? 404 then
                 raise_NoResultError
                   "Request invalid. API auth details may be incorrect."
               else if code =? 400 then
                 raise_NoResultError "Request invalid. Bad request."
               else print_exc code ;;; ret None) ;;
  jsonfinal <- lift (json_loads_decode html) ;;
  if negb (truthy jsonfinal) then
    raise_NoResultError "Request was successful, but returned no data."
  else ret jsonfinal.

(** The messages of the three [NoResultError]s about the session and of the
    one about an empty result. *)
Definition msg_create_404 : string :=
  "Couldn't create session. API auth details may be incorrect.".
Definition msg_test_404 : string :=
  "Couldn't test session. API auth details may be incorrect.".
Definition msg_request_404 : string :=
  "Request invalid. API auth details may be incorrect.".
Definition msg_request_400 : string := "Request invalid. Bad request.".
Definition msg_no_data : string :=
  "Request was successful, but returned no data.".

(** *** The shape of a run

    What the three [try: urlopen ... except HTTPError] blocks make of an
    answer, and the events each part of a request leaves in the trace. *)

Definition probe_events (url : string) (answer : response) : list event :=
  [EvLog (Log_testing_session url); EvUrlopen In_test_session url answer].

Definition create_events (url : string) (answer : response) : list event :=
  [EvLog Log_creating_session; EvUrlopen In_create_session url answer].

Definition request_events (methodname url : string) (answer : response)
  : list event :=
  [EvLog (Log_built_url methodname url); EvUrlopen In_make_request url answer].

(** [_create_session] and [_test_session]: the parsed body, or the exception
    that comes out, and what the handler leaves in the trace. *)
Definition session_result (msg404 : string) (answer : response) : result json :=
  match answer with
  | Resp_body b => json_loads_decode (Some b)
  | Resp_HTTPError code =>
      if code =? 404 then Raise (NoResultError msg404)
      else json_loads_decode None
  | Resp_URLError => Raise URLError
  end.

Definition session_tail (msg404 : string) (answer : response) : list event :=
  match answer with
  | Resp_HTTPError code =>
      if code =? 404 then [EvLog (Log_smite_error msg404)] else [EvPrintExc code]
  | _ => []
  end.

Definition probe_result (answer : response) : result bool :=
  match session_result msg_test_404 answer with
  | Return reply => py_in "successful" reply
  | Raise e => Raise e
  end.

(** [_make_request], from [urlopen] on. *)
Definition request_result (answer : response) : result json :=
  match answer with
  | Resp_body b =>
      match json_loads_decode (Some b) with
      | Return jsonfinal =>
          if truthy jsonfinal then Return jsonfinal
          else Raise (NoResultError msg_no_data)
      | Raise e => Raise e
      end
  | Resp_HTTPError code =>
      if code =? 404 then Raise (NoResultError msg_request_404)
      else if code =? 400 then Raise (NoResultError msg_request_400)
      else json_loads_decode None
  | Resp_URLError => Raise URLError
  end.

Definition request_tail (answer : response) : list event :=
  match answer with
  | Resp_body (Body_json jsonfinal) =>
      if truthy jsonfinal then [] else [EvLog (Log_smite_error msg_no_data)]
  | Resp_body Body_garbage => []
  | Resp_HTTPError code =>
      if code =? 404 then [EvLog (Log_smite_error msg_request_404)]
      else if code =? 400 then [EvLog (Log_smite_error msg_request_400)]
      else [EvPrintExc code]
  | Resp_URLError => []
  end.

(** The session needs renewal: the slot is empty (falsy), with no event, or
    it holds a session whose probe came back false. *)
Inductive renewing (session : json) : list event -> Prop :=
| Renew_absent :
    truthy session = false -> renewing session []
| Renew_expired url answer :
    truthy session = true -> probe_result answer = Return false ->
    renewing session (probe_events url answer).

(** The session check of [_make_request]: result, object afterwards, events. *)
Inductive ensure_shape (c : client)
  : result unit -> client -> list event -> Prop :=
| Ensure_unusable e :
    truthy (_session c) = true -> e = AttributeError \/ e = TypeError ->
    ensure_shape c (Raise e) c []
| Ensure_alive url answer :
    truthy (_session c) = true -> probe_result answer = Return true ->
    ensure_shape c (Return tt) c (probe_events url answer)
| Ensure_probe_raised url answer e :
    truthy (_session c) = true -> probe_result answer = Raise e ->
    ensure_shape c (Raise e) c
      (probe_events url answer ++ session_tail msg_test_404 answer)
| Ensure_renewed before url answer j :
    renewing (_session c) before ->
    session_result msg_create_404 answer = Return j ->
    ensure_shape c (Return tt) (with_session j c)
      (before ++ create_events url answer)
| Ensure_create_raised before url answer e :
    renewing (_session c) before ->
    session_result msg_create_404 answer = Raise e ->
    ensure_shape c (Raise e) c
      (before ++ create_events url answer ++ session_tail msg_create_404 answer).

(** A whole [_make_request methodname _]. *)
Inductive request_shape (methodname : string) (c : client)
  : result json -> client -> list event -> Prop :=
| Request_no_session e c1 evs :
    ensure_shape c (Raise e) c1 evs ->
    request_shape methodname c (Raise e) c1 evs
| Request_no_url e c1 evs :
    ensure_shape c (Return tt) c1 evs ->
    e = AttributeError \/ e = TypeError ->
    request_shape methodname c (Raise e) c1 evs
| Request_sent c1 evs url answer :
    ensure_shape c (Return tt) c1 evs ->
    request_shape methodname c (request_result answer) c1
      (evs ++ request_events methodname url answer ++ request_tail answer).

(** The message of the [NoResultError] that a 404 raises in
    [_create_session] and in [_test_session]. *)
Definition session_msg_404 (at_site : site) : string :=
  match at_site with
  | In_test_session => msg_test_404
  | _ => msg_create_404
  end.

(** *** Public calls

    One constructor per public method of the class, with its arguments. *)
Inductive public_call : Type :=
| Ping
| Get_data_used
| Get_demo_details (match_id : pyval)
| Get_gods
| Get_god_skins (god_id : pyval)
| Get_items
| Get_god_recommended_items (god_id : pyval)
| Get_esports_proleague_details
| Get_top_matches
| Get_match_details (match_id : pyval)
| Get_match_ids_by_queue (queue date hour : pyval)
| Get_league_leaderboard (queue tier season : pyval)
| Get_league_seasons (queue : pyval)
| Get_team_details (clan_id : pyval)
| Get_team_match_history (clan_id : pyval)
| Get_team_players (clan_id : pyval)
| Search_teams (search_team : pyval)
| Get_player (player_name : pyval)
| Get_player_achievements (player_id : pyval)
| Get_player_status (player_name : pyval)
| Get_friends (player : pyval)
| Get_god_ranks (player : pyval)
| Get_match_history (player : pyval)
| Get_match_player_details (match_id : pyval)
| Get_motd
| Get_queue_stats (player queue : pyval).

Definition invoke (W : world) (call : public_call) : M json :=
  match call with
  | Ping => SmiteClient.ping W
  | Get_data_used => SmiteClient.get_data_used W
  | Get_demo_details match_id => SmiteClient.get_demo_details W match_id
  | Get_gods => SmiteClient.get_gods W
  | Get_god_skins god_id => SmiteClient.get_god_skins W god_id
  | Get_items => SmiteClient.get_items W
  | Get_god_recommended_items god_id =>
      SmiteClient.get_god_recommended_items W god_id
  | Get_esports_proleague_details => SmiteClient.get_esports_proleague_details W
  | Get_top_matches => SmiteClient.get_top_matches W
  | Get_match_details match_id => SmiteClient.get_match_details W match_id
  | Get_match_ids_by_queue queue date hour =>
      SmiteClient.get_match_ids_by_queue W queue date hour
  | Get_league_leaderboard queue tier season =>
      SmiteClient.get_league_leaderboard W queue tier season
  | Get_league_seasons queue => SmiteClient.get_league_seasons W queue
  | Get_team_details clan_id => SmiteClient.get_team_details W clan_id
  | Get_team_match_history clan_id =>
      SmiteClient.get_team_match_history W clan_id
  | Get_team_players clan_id => SmiteClient.get_team_players W clan_id
  | Search_teams search_team => SmiteClient.search_teams W search_team
  | Get_player player_name => SmiteClient.get_player W player_name
  | Get_player_achievements player_id =>
      SmiteClient.get_player_achievements W player_id
  | Get_player_status player_name => SmiteClient.get_player_status W player_name
  | Get_friends player => SmiteClient.get_friends W player
  | Get_god_ranks player => SmiteClient.get_god_ranks W player
  | Get_match_history player => SmiteClient.get_match_history W player
  | Get_match_player_details match_id =>
      SmiteClient.get_match_player_details W match_id
  | Get_motd => SmiteClient.get_motd W
  | Get_queue_stats player queue => SmiteClient.get_queue_stats W player queue
  end.

(** A caller making one public call after the other, whatever each returns
    or raises. *)
Fixpoint run_calls (W : world) (calls : list public_call) (s : state)
  : list (result json) * state :=
  match calls with
  | [] => ([], s)
  | call :: rest =>
      let (r, s1) := invoke W call s in
      let (rs, s2) := run_calls W rest s1 in
      (r :: rs, s2)
  end.

(** An event of session creation: its log record or its request. *)
Definition is_creation (e : event) : bool :=
  match e with
  | EvLog Log_creating_session => true
  | EvUrlopen In_create_session _ _ => true
  | _ => false
  end.

(** The call sites of the requests among some events, in order. *)
Fixpoint sites (evs : list event) : list site :=
  match evs with
  | [] => []
  | EvUrlopen at_site _ _ :: rest => at_site :: sites rest
  | _ :: rest => sites rest
  end.

(** The state right after [SmiteClient(dev_id, auth_key, lang)]. *)
Definition start (dev_id auth_key lang : pyval) : state :=
  {| self := SmiteClient.__init__ dev_id auth_key lang;
     ticks := 0; fetched := 0;
     trace := [EvLog (Log_init (py_str dev_id) (py_str auth_key)
                        (py_str lang))] |}.

(** *** Stub transports

    A transport that answers by the kind of URL it is asked: session
    creation, liveness probe, or anything else, on the PC endpoint. *)
Definition stub (on_create on_probe on_request : response)
  : nat -> string -> response :=
  fun _ url =>
    if String.prefix (Endpoint_value PC ++ "/createsessionJson/") url
    then on_create
    else if String.prefix (Endpoint_value PC ++ "testsessionJson/") url
    then on_probe
    else on_request.

Definition ok (j : json) : response := Resp_body (Body_json j).

Definition TestGod : json := JObj [("id", JInt 1); ("Name", JStr "TestGod")].

Definition a_session : json :=
  JObj [("ret_msg", JStr "Approved");
        ("session_id", JStr "0123456789ABCDEF0123456789ABCDEF");
        ("timestamp", JStr "1/2/2024 3:04:05 AM")].

Definition probe_yes : json :=
  JStr "This was a successful test with the following parameters added: developer: 123 time: 1/2/2024 3:04:05 AM signature: 0 session: 0123456789ABCDEF0123456789ABCDEF".

Definition probe_no : json := JStr "Invalid session id.".

(** A clock that starts at 2024-01-02 03:04:05 and advances one second with
    every reading (it stays within that day). *)
Definition a_clock (n : nat) : datetime :=
  let t := ((11045 + N.of_nat n) mod 86400)%N in
  {| year := 2024; month := 1; day := 2; hour := (t / 3600)%N;
     minute := ((t / 60) mod 60)%N; second := (t mod 60)%N |}.

Definition world_of (on_create on_probe on_request : response) : world :=
  {| utcnow := a_clock; urlopen := stub on_create on_probe on_request |}.

(** The client of the scenario: developer ID 123, auth key abc. *)
Definition client_123 : state := start (PStr "123") (PStr "abc") (PInt 1).

(** The same client holding [a_session]. *)
Definition client_123_in_session : state := store a_session client_123.

(** The transport of the scenario, under any clock: a session for
    createsession, a success message for testsession, the god for the rest. *)
Definition scenario_world (clock : nat -> datetime) : world :=
  {| utcnow := clock;
     urlopen := stub (ok a_session) (ok probe_yes) (ok TestGod) |}.

(** A transport that returns the same object whatever it is asked. *)
Definition uniform_world (clock : nat -> datetime) (j : json) : world :=
  {| utcnow := clock; urlopen := fun _ _ => ok j |}.

(** The scenario of the specification: the client 123/abc requests getgods
    with parameters [[1]] twice; both calls return the god, the first after
    [first_trips] round trips and the second after [later_trips]. *)
Definition spec_scenario (W : world) (first_trips later_trips : nat) : Prop :=
  let first :=
    SmiteClient._make_request W "getgods" (Some [PInt 1]) client_123 in
  let second :=
    SmiteClient._make_request W "getgods" (Some [PInt 1]) (snd first) in
  fst first = Return TestGod
  /\ round_trips (new_events client_123 (snd first)) = first_trips
  /\ fst second = Return TestGod
  /\ round_trips (new_events (snd first) (snd second)) = later_trips.

(** The decoded response contains [needle]: it occurs in a string of the
    value, be it the value itself, a key, or a string further inside. *)
Fixpoint mentions (needle : string) (j : json) : bool :=
  match j with
  | JStr s => str_contains needle s
  | JArr items => existsb (mentions needle) items
  | JObj members =>
      existsb (fun kv => let (k, v) := kv : string * json in
                         str_contains needle k || mentions needle v) members
  | _ => false
  end.

(** The liveness probe as the specification words it: true exactly when the
    decoded response contains the marker. *)
Definition spec_probe (W : world) (session : json) (s : state)
    (reply : json) : Prop :=
  fst (SmiteClient._test_session W session s)
  = Return (mentions "successful" reply).

(** A creation response with a session identifier field. *)
Definition has_session_id (j : json) : bool :=
  match j with
  | JObj members => dict_has_key "session_id" members
  | _ => false
  end.

(** The session transitions as the specification words them, over one
    request from [s] to [s']: from Absent to Created only through a creation
    response with a session identifier field, and back to Absent whenever a
    probe comes back without the marker. *)
Definition spec_session_transitions (s s' : state) : Prop :=
  let evs := new_events s s' in
  (truthy (_session (self s)) = false ->
   truthy (_session (self s')) = true ->
   exists url j, In (EvUrlopen In_create_session url (ok j)) evs
                 /\ has_session_id j = true)
  /\ (truthy (_session (self s)) = true ->
      (exists url answer, In (EvUrlopen In_test_session url answer) evs
                          /\ probe_result answer = Return false) ->
      truthy (_session (self s')) = false).

(** A creation response without a session identifier, as the service sends
    for a bad signature. *)
Definition refusal : json :=
  JObj [("ret_msg", JStr "Exception - Timestamp"); ("timestamp", JNull)].

(** A reply that carries the marker inside an object. *)
Definition wrapped_yes : json :=
  JObj [("ret_msg", JStr "This was a successful test")].

(** Every liveness probe among some events found the session alive. *)
Definition probes_alive (evs : list event) : bool :=
  forallb (fun e =>
             match e with
             | EvUrlopen In_test_session _ answer =>
                 match probe_result answer with
                 | Return true => true
                 | _ => false
                 end
             | _ => true
             end) evs.

(** A [datetime] as [datetime.utcnow()] can return it nowadays: a year of
    four digits, and the other fields in their ranges. *)
Definition valid_datetime (dt : datetime) : bool :=
  ((1000 <=? year dt) && (year dt <=? 9999)
   && (1 <=? month dt) && (month dt <=? 12)
   && (1 <=? day dt) && (day dt <=? 31)
   && (hour dt <=? 23) && (minute dt <=? 59) && (second dt <=? 59))%N.

Definition is_digit (c : ascii) : bool :=
  let n := nat_of_ascii c in ((48 <=? n)%nat && (n <=? 57)%nat).

(** *** URLs, usable sessions and sequences of operations *)

(** The session identifier a stored session offers to the URL builders:
    the [session_id] of an object, when it is a string. *)
Definition session_id_of (session : json) : option string :=
  match session with
  | JObj members =>
      match dict_get "session_id" members with
      | JStr session_id => Some session_id
      | _ => None
      end
  | _ => None
  end.

(** The signature the object [c] makes for [methodname] from the [k]-th
    reading of the clock, and the timestamp of that reading. *)
Definition signature_at (W : world) (c : client) (methodname : string)
    (k : nat) : string :=
  spec_signature (dev_id c) methodname (auth_key c) (strftime (utcnow W k)).

Definition timestamp_at (W : world) (k : nat) : string :=
  strftime (utcnow W k).

(** The three URLs the session manager builds (source lines 108, 130 to 132
    and 101 to 104 with 80). *)
Definition create_url (c : client) (signature timestamp : string) : string :=
  _BASE_URL c ++ "/createsessionJson/" ++ dev_id c ++ "/" ++ signature ++ "/"
  ++ timestamp.

Definition probe_url (c : client) (signature session_id timestamp : string)
  : string :=
  _BASE_URL c ++ String.concat "/"
    ["testsessionJson"; dev_id c; signature; session_id; timestamp].

Definition request_url (c : client) (methodname signature session_id
    timestamp : string) (parameters : option (list pyval)) : string :=
  replace_spaces
    (_BASE_URL c ++ String.concat "/"
       ([methodname ++ "Json"; dev_id c; signature; session_id; timestamp]
        ++ params_strs parameters)).

(** A request in the trace has the URL its method builds: [c0] is the object
    when [_make_request methodname parameters] starts and [c1] the object
    when it ends; the signature and the timestamp come from two consecutive
    readings of the clock.  [ping] is not part of a request. *)
Definition url_as_built (W : world) (c0 c1 : client) (methodname : string)
    (parameters : option (list pyval)) (e : event) : Prop :=
  match e with
  | EvUrlopen In_create_session url _ =>
      exists k,
        url = create_url c0 (signature_at W c0 "createsession" k)
                (timestamp_at W (S k))
  | EvUrlopen In_test_session url _ =>
      exists k session_id,
        session_id_of (_session c0) = Some session_id
        /\ url = probe_url c0 (signature_at W c0 "testsession" (S k))
                   session_id (timestamp_at W k)
  | EvUrlopen In_make_request url _ =>
      exists k session_id,
        session_id_of (_session c1) = Some session_id
        /\ url = request_url c1 methodname (signature_at W c1 methodname k)
                   session_id (timestamp_at W (S k)) parameters
  | EvUrlopen In_ping _ _ => False
  | _ => True
  end.

(** The number of spaces in a string. *)
Fixpoint spaces (s : string) : nat :=
  match s with
  | EmptyString => 0
  | String c rest =>
      if Ascii.eqb c " "%char then S (spaces rest) else spaces rest
  end.

(** What a program does with a client: a public call, or a switch of
    endpoint. *)
Inductive operation : Type :=
| Op_call (call : public_call)
| Op_switch (endpoint : pyval).

Definition perform (W : world) (op : operation) (s : state) : state :=
  match op with
  | Op_call call => snd (invoke W call s)
  | Op_switch endpoint => snd (SmiteClient._switch_endpoint endpoint s)
  end.

Definition perform_all (W : world) (ops : list operation) (s : state) : state :=
  fold_left (fun st op => perform W op st) ops s.

(** The endpoint in force after some operations, starting from [e]: that of
    the last switch that named a member of the enum. *)
Fixpoint endpoint_after (ops : list operation) (e : Endpoint) : Endpoint :=
  match ops with
  | [] => e
  | Op_switch (PEndpoint e') :: rest => endpoint_after rest e'
  | _ :: rest => endpoint_after rest e
  end.

(** The exception, if any, and the message of a [SmiteError] or
    [NoResultError]. *)
Definition smite_message {A} (r : result A) : option string :=
  match r with
  | Raise (SmiteError msg) => Some msg
  | Raise (NoResultError msg) => Some msg
  | _ => None
  end.

(* ================================================================== *)
(** * Properties *)

(** Known answers of [hashlib.md5]. *)
Example md5_empty :
  MD5.hexdigest (encode_utf8 "") = "d41d8cd98f00b204e9800998ecf8427e".
Proof. vm_compute. reflexivity. Qed.

Example md5_abc :
  MD5.hexdigest (encode_utf8 "abc") = "900150983cd24fb0d6963f7d28e17f72".
Proof. vm_compute. reflexivity. Qed.

Example md5_message_digest :
  MD5.hexdigest (encode_utf8 "message digest")
  = "f96b697d7cb7938d525a2f31aaf161d0".
Proof. vm_compute. reflexivity. Qed.

Example md5_two_blocks :
  MD5.hexdigest (encode_utf8
    "12345678901234567890123456789012345678901234567890123456789012345678901234567890")
  = "57edf4a22be3c955ac49da2e2107b67a".
Proof. vm_compute. reflexivity. Qed.

Example md5_fox :
  MD5.hexdigest (encode_utf8 "The quick brown fox jumps over the lazy dog")
  = "9e107d9d372bb6826bd81d3542a419d6".
Proof. vm_compute. reflexivity. Qed.

(** The signature of the scenario's first request, as [hashlib] gives it. *)
Example signature_getgods :
  spec_signature "123" "getgods" "abc" "20240102030405"
  = "0d8a1540229a0e9a6a421e9c4d80f268".
Proof. vm_compute. reflexivity. Qed.

Example strftime_a_clock :
  map (fun n => strftime (a_clock n)) [0; 1; 55; 3300]%nat
  = ["20240102030405"; "20240102030406"; "20240102030500"; "20240102035905"].
Proof. vm_compute. reflexivity. Qed.

Example py_str_values :
  map py_str [PInt 0; PInt 1; PInt (-1); PInt 1234567890; PStr "a b"; PNone;
              PEndpoint XBOX]
  = ["0"; "1"; "-1"; "1234567890"; "a b"; "None"; "Endpoint.XBOX"].
Proof. vm_compute. reflexivity. Qed.

Example replace_spaces_player :
  replace_spaces "getplayerJson/1/ab/Some Player  Name"
  = "getplayerJson/1/ab/Some%20Player%20%20Name".
Proof. vm_compute. reflexivity. Qed.

Example truthy_values :
  map truthy [JNull; JObj []; JArr []; JStr ""; JInt 0; JBool false;
              JFloat (S754_zero true); JObj [("a", JNull)]; JArr [JNull];
              JStr "0"; JInt 2; JFloat S754_nan]
  = [false; false; false; false; false; false; false; true; true; true; true;
     true].
Proof. reflexivity. Qed.

(** ** Strings *)

Lemma encode_utf8_app (a b : string) :
  encode_utf8 (a ++ b) = (encode_utf8 a ++ encode_utf8 b)%list.
Proof.
  unfold encode_utf8, list_byte_of_string.
  induction a as [|c a IH]; simpl; [reflexivity|].
  now rewrite IH.
Qed.

Lemma str_app_assoc (a b c : string) : (a ++ b) ++ c = a ++ b ++ c.
Proof. induction a as [|x a IH]; cbn; [reflexivity|now rewrite IH]. Qed.

Lemma prefix_app (a b : string) : String.prefix a (a ++ b) = true.
Proof.
  induction a as [|c a IH]; cbn.
  - destruct b; reflexivity.
  - destruct (ascii_dec c c); [exact IH|congruence].
Qed.

Lemma prefix_common (a x y : string) :
  String.prefix (a ++ x) (a ++ y) = String.prefix x y.
Proof.
  induction a as [|c a IH]; cbn; [reflexivity|].
  destruct (ascii_dec c c); [exact IH|congruence].
Qed.

Lemma replace_spaces_app (a b : string) :
  replace_spaces (a ++ b) = replace_spaces a ++ replace_spaces b.
Proof.
  induction a as [|c a IH]; cbn; [reflexivity|].
  destruct (Ascii.eqb c " "); rewrite IH; reflexivity.
Qed.

(** [needle in s] holds exactly when [s] splits around [needle]. *)
Lemma prefix_split (a s : string) :
  String.prefix a s = true <-> exists rest, s = a ++ rest.
Proof.
  split.
  - revert s. induction a as [|c a IH]; intros s H.
    + now exists s.
    + destruct s as [|d s]; cbn in H; [discriminate|].
      destruct (ascii_dec c d) as [->|]; [|discriminate].
      destruct (IH _ H) as [rest ->]. now exists rest.
  - intros [rest ->]. apply prefix_app.
Qed.

Lemma str_contains_split (needle s : string) :
  str_contains needle s = true <->
  exists before after, s = before ++ needle ++ after.
Proof.
  split.
  - induction s as [|c s IH]; cbn [str_contains]; rewrite orb_true_iff;
      intros [H|H].
    + apply prefix_split in H as [rest ->]. now exists "", rest.
    + discriminate.
    + apply prefix_split in H as [rest H]. now exists "", rest.
    + destruct (IH H) as (before & after & ->).
      now exists (String c before), after.
  - intros (before & after & ->).
    induction before as [|c before IH].
    + cbn [append]. pose proof (prefix_app needle after) as P.
      destruct (needle ++ after); cbn [str_contains]; rewrite P; reflexivity.
    + cbn [append str_contains]. rewrite IH. apply orb_true_r.
Qed.

(** The stub transport answers by the kind of URL. *)
Lemma stub_on_create (a b c : response) (n : nat) (rest : string) :
  stub a b c n (Endpoint_value PC ++ "/createsessionJson/" ++ rest) = a.
Proof. unfold stub. now rewrite <- str_app_assoc, prefix_app. Qed.

Lemma stub_on_probe (a b c : response) (n : nat) (x : string)
    (rest : list string) :
  stub a b c n
    (Endpoint_value PC ++ String.concat "/" ("testsessionJson" :: x :: rest))
  = b.
Proof.
  unfold stub. rewrite prefix_common.
  change (String.concat "/" ("testsessionJson" :: x :: rest))
    with ("testsessionJson/" ++ String.concat "/" (x :: rest)).
  rewrite <- (str_app_assoc (Endpoint_value PC)), prefix_app.
  reflexivity.
Qed.

Lemma stub_on_getgods (a b c : response) (n : nat) (x : string)
    (rest : list string) :
  stub a b c n
    (replace_spaces
       (Endpoint_value PC
        ++ String.concat "/" (("getgods" ++ "Json") :: x :: rest)))
  = c.
Proof.
  unfold stub. rewrite replace_spaces_app.
  change (replace_spaces (Endpoint_value PC)) with (Endpoint_value PC).
  rewrite !prefix_common.
  change (String.concat "/" (("getgods" ++ "Json") :: x :: rest))
    with ("getgodsJson/" ++ String.concat "/" (x :: rest)).
  rewrite replace_spaces_app. reflexivity.
Qed.

Lemma length_string_of_list_ascii (l : list ascii) :
  String.length (string_of_list_ascii l) = List.length l.
Proof. induction l; simpl; congruence. Qed.

(** ** The digest is sixteen bytes, printed as thirty-two hex digits *)

Lemma le_bytes_byte (count : nat) (x : Z) :
  Forall (fun b => 0 <= b < 256) (MD5.le_bytes count x).
Proof.
  unfold MD5.le_bytes. apply Forall_forall. intros b Hb.
  apply in_map_iff in Hb. destruct Hb as [i [<- _]].
  change 255 with (Z.ones 8). rewrite Z.land_ones by lia.
  change (2 ^ 8) with 256. apply Z.mod_pos_bound. lia.
Qed.

Lemma digest_length (msg : list byte) : List.length (MD5.digest msg) = 16%nat.
Proof.
  unfold MD5.digest.
  destruct (MD5.blocks _ _ _) as [[[a b] c] d]. reflexivity.
Qed.

Lemma digest_bytes (msg : list byte) :
  Forall (fun b => 0 <= b < 256) (MD5.digest msg).
Proof.
  unfold MD5.digest.
  destruct (MD5.blocks _ _ _) as [[[a b] c] d].
  repeat (apply Forall_app; split); apply le_bytes_byte.
Qed.

Lemma hex_digit_lower (n : Z) :
  0 <= n < 16 -> is_lower_hex (MD5.hex_digit n) = true.
Proof.
  intros H.
  assert (E : exists k, (k < 16)%nat /\ n = Z.of_nat k).
  { exists (Z.to_nat n). split; lia. }
  destruct E as [k [Hk ->]]. unfold MD5.hex_digit. rewrite Nat2Z.id.
  do 16 (destruct k as [|k]; [reflexivity|]). lia.
Qed.

Lemma hexdigest_length (msg : list byte) :
  String.length (MD5.hexdigest msg) = 32%nat.
Proof.
  unfold MD5.hexdigest. rewrite length_string_of_list_ascii.
  pose proof (digest_length msg) as H.
  destruct (MD5.digest msg) as [|b0 l]; [discriminate|].
  do 15 (destruct l as [|? l]; [discriminate|]).
  destruct l; [reflexivity|discriminate].
Qed.

Lemma hexdigest_lower_hex (msg : list byte) :
  forallb is_lower_hex (list_ascii_of_string (MD5.hexdigest msg)) = true.
Proof.
  unfold MD5.hexdigest. rewrite list_ascii_of_string_of_list_ascii.
  pose proof (digest_bytes msg) as H.
  induction H as [|b l Hb _ IH]; [reflexivity|].
  cbn [flat_map app forallb]. rewrite IH.
  rewrite !hex_digit_lower; [reflexivity| |].
  - change 15 with (Z.ones 4). rewrite Z.land_ones by lia.
    change (2 ^ 4) with 16. apply Z.mod_pos_bound. lia.
  - rewrite Z.shiftr_div_pow2 by lia. change (2 ^ 4) with 16.
    split; [apply Z.div_pos; lia | apply Z.div_lt_upper_bound; lia].
Qed.

(** C1. [_create_signature] reads the clock once and returns the lowercase
    hexadecimal MD5 digest of the UTF-8 bytes of
    [dev_id + methodname + auth_key + timestamp], where the timestamp is that
    reading formatted as YYYYMMDDHHMMSS; it is deterministic, the same four
    strings giving the same signature under any clock and in any state; the
    result is 32 characters long, and every character is in [0-9a-f]. *)
Theorem create_signature_md5_hex (W : world) (methodname : string) (s : state) :
  let timestamp := strftime (utcnow W (ticks s)) in
  let signature :=
    spec_signature (dev_id (self s)) methodname (auth_key (self s)) timestamp in
  SmiteClient._create_signature W methodname s = (Return signature, tick s)
  /\ (forall (W' : world) (s' : state),
        dev_id (self s') = dev_id (self s) ->
        auth_key (self s') = auth_key (self s) ->
        strftime (utcnow W' (ticks s')) = timestamp ->
        fst (SmiteClient._create_signature W' methodname s') = Return signature)
  /\ String.length signature = 32%nat
  /\ forallb is_lower_hex (list_ascii_of_string signature) = true.
Proof.
  assert (Hrun : forall W0 s0,
             SmiteClient._create_signature W0 methodname s0
             = (Return (spec_signature (dev_id (self s0)) methodname
                          (auth_key (self s0))
                          (strftime (utcnow W0 (ticks s0)))), tick s0)).
  { intros W0 s0. unfold spec_signature.
    unfold SmiteClient._create_signature, SmiteClient._create_now_timestamp,
      SmiteClient.datetime_utcnow, bind, ret, get_self, tick.
    cbn [self ticks fetched trace].
    now rewrite !encode_utf8_app. }
  cbv zeta. split; [apply Hrun|]. split.
  - intros W' s' Hdev Hkey Hts. rewrite Hrun. cbn [fst]. congruence.
  - unfold spec_signature.
    split; [apply hexdigest_length|apply hexdigest_lower_hex].
Qed.

(** The timestamp has the form YYYYMMDDHHMMSS: fourteen digits. *)
Lemma str_length_app (a b : string) :
  String.length (a ++ b) = (String.length a + String.length b)%nat.
Proof. induction a as [|c a IH]; cbn; [reflexivity|now rewrite IH]. Qed.

Lemma list_ascii_app (a b : string) :
  list_ascii_of_string (a ++ b)
  = (list_ascii_of_string a ++ list_ascii_of_string b)%list.
Proof. induction a as [|c a IH]; cbn; [reflexivity|now rewrite IH]. Qed.

Lemma zero_padded_digits (width : nat) (low count n : N) :
  forallb (fun k =>
             let field := zero_padded width (low + N.of_nat k) in
             (String.length field =? width)%nat
             && forallb is_digit (list_ascii_of_string field))
          (seq 0 (N.to_nat count)) = true ->
  (low <= n < low + count)%N ->
  String.length (zero_padded width n) = width
  /\ forallb is_digit (list_ascii_of_string (zero_padded width n)) = true.
Proof.
  intros Hall Hn. rewrite forallb_forall in Hall.
  specialize (Hall (N.to_nat (n - low))).
  replace (low + N.of_nat (N.to_nat (n - low)))%N with n in Hall by lia.
  cbv zeta in Hall. rewrite andb_true_iff, Nat.eqb_eq in Hall.
  apply Hall, in_seq. lia.
Qed.

Lemma strftime_14_digits (dt : datetime) :
  valid_datetime dt = true ->
  String.length (strftime dt) = 14%nat
  /\ forallb is_digit (list_ascii_of_string (strftime dt)) = true.
Proof.
  unfold valid_datetime. rewrite !andb_true_iff, !N.leb_le.
  intros [[[[[[[[Hy1 Hy2] Hm1] Hm2] Hd1] Hd2] Hh] Hi] Hs].
  assert (P2 : forall n, (n < 100)%N ->
             String.length (zero_padded 2 n) = 2%nat
             /\ forallb is_digit (list_ascii_of_string (zero_padded 2 n)) = true).
  { intros n Hn. apply (zero_padded_digits 2 0 100); [vm_compute; reflexivity|].
    lia. }
  assert (P4 : String.length (zero_padded 4 (year dt)) = 4%nat
               /\ forallb is_digit
                    (list_ascii_of_string (zero_padded 4 (year dt))) = true).
  { apply (zero_padded_digits 4 1000 9000); [vm_compute; reflexivity|]. lia. }
  unfold strftime.
  destruct P4 as [L4 D4].
  destruct (P2 (month dt)) as [Lm Dm]; [lia|].
  destruct (P2 (day dt)) as [Ld Dd]; [lia|].
  destruct (P2 (hour dt)) as [Lh Dh]; [lia|].
  destruct (P2 (minute dt)) as [Li Di]; [lia|].
  destruct (P2 (second dt)) as [Ls Ds]; [lia|].
  rewrite !str_length_app, !list_ascii_app, !forallb_app.
  rewrite L4, Lm, Ld, Lh, Li, Ls, D4, Dm, Dd, Dh, Di, Ds.
  split; reflexivity.
Qed.

(* ================================================================== *)
(** ** The methods, run symbolically *)

Arguments MD5.hexdigest : simpl never.
Arguments strftime : simpl never.
Arguments replace_spaces : simpl never.
Arguments String.append : simpl never.
Arguments String.concat : simpl never.

Ltac unfold_monad :=
  unfold SmiteClient._create_signature, SmiteClient._create_now_timestamp,
    SmiteClient.datetime_utcnow, try_except_HTTPError, SmiteClient.urlopen_read,
    json_loads_decode, raise_NoResultError, raise_SmiteError, print_exc,
    set_session, set_BASE_URL, emit, raise, bind, ret, lift, get_self,
    advance, store, tick;
  cbn [self ticks fetched trace].

Lemma bind_assoc {A B C} (m : M A) (f : A -> M B) (g : B -> M C) (s : state) :
  bind (bind m f) g s = bind m (fun a => bind (f a) g) s.
Proof. unfold bind. destruct (m s) as [[a|e] s1]; reflexivity. Qed.

Lemma all_str_strs (ss : list string) : all_str (map JStr ss) = Some ss.
Proof. induction ss as [|x ss IH]; cbn; [reflexivity | now rewrite IH]. Qed.

Lemma create_session_eq (W : world) (s : state) :
  SmiteClient._create_session W s =
    let c := self s in
    let signature := spec_signature (dev_id c) "createsession" (auth_key c)
                       (strftime (utcnow W (ticks s))) in
    let timestamp := strftime (utcnow W (S (ticks s))) in
    let url := _BASE_URL c ++ "/createsessionJson/" ++ dev_id c ++ "/"
               ++ signature ++ "/" ++ timestamp in
    let answer := urlopen W (fetched s) url in
    let fetch := EvUrlopen In_create_session url answer in
    match answer with
    | Resp_body (Body_json j) => (Return j, advance s 2 1 [fetch])
    | Resp_body Body_garbage => (Raise ValueError, advance s 2 1 [fetch])
    | Resp_HTTPError code =>
        if code =? 404 then
          (Raise (NoResultError msg_create_404),
           advance s 2 1 [fetch; EvLog (Log_smite_error msg_create_404)])
        else (Raise (UnboundLocalError "html"),
              advance s 2 1 [fetch; EvPrintExc code])
    | Resp_URLError => (Raise URLError, advance s 2 1 [fetch])
    end.
Proof.
  cbv zeta. unfold spec_signature, msg_create_404. rewrite !encode_utf8_app.
  unfold SmiteClient._create_session. unfold_monad.
  destruct (urlopen W (fetched s) _) as [[j|]|code|];
    cbn [self ticks fetched trace]; try reflexivity.
  destruct (code =? 404); cbn [self ticks fetched trace];
    rewrite <- app_assoc; reflexivity.
Qed.

Lemma test_session_eq (W : world) (session : json) (s : state) :
  SmiteClient._test_session W session s =
    let c := self s in
    let timestamp := strftime (utcnow W (ticks s)) in
    let signature := spec_signature (dev_id c) "testsession" (auth_key c)
                       (strftime (utcnow W (S (ticks s)))) in
    match session with
    | JObj members =>
        match dict_get "session_id" members with
        | JStr session_id =>
            let url := _BASE_URL c ++ String.concat "/"
                         ["testsessionJson"; dev_id c; signature; session_id;
                          timestamp] in
            let answer := urlopen W (fetched s) url in
            let evs := [EvLog (Log_testing_session url);
                        EvUrlopen In_test_session url answer] in
            match answer with
            | Resp_body (Body_json reply) =>
                (py_in "successful" reply, advance s 2 1 evs)
            | Resp_body Body_garbage => (Raise ValueError, advance s 2 1 evs)
            | Resp_HTTPError code =>
                if code =? 404 then
                  (Raise (NoResultError msg_test_404),
                   advance s 2 1 (evs ++ [EvLog (Log_smite_error msg_test_404)]))
                else (Raise (UnboundLocalError "html"),
                      advance s 2 1 (evs ++ [EvPrintExc code]))
            | Resp_URLError => (Raise URLError, advance s 2 1 evs)
            end
        | _ => (Raise TypeError, advance s 2 0 [])
        end
    | _ => (Raise AttributeError, advance s 2 0 [])
    end.
Proof.
  cbv zeta. unfold spec_signature, msg_test_404. rewrite !encode_utf8_app.
  unfold SmiteClient._test_session. unfold_monad.
  destruct session; cbn [py_get]; rewrite ?app_nil_r; try reflexivity.
  destruct (dict_get "session_id" members);
    cbn [str_join all_str]; rewrite ?app_nil_r; try reflexivity.
  cbn [self ticks fetched trace].
  destruct (urlopen W (fetched s) _) as [[j|]|code|];
    cbn [self ticks fetched trace]; rewrite <- ?app_assoc; try reflexivity.
  destruct (code =? 404); cbn [self ticks fetched trace];
    rewrite <- !app_assoc; reflexivity.
Qed.

Lemma build_request_url_eq (W : world) (methodname : string)
    (parameters : option (list pyval)) (s : state) :
  SmiteClient._build_request_url W methodname parameters s =
    let c := self s in
    let signature := spec_signature (dev_id c) methodname (auth_key c)
                       (strftime (utcnow W (ticks s))) in
    let timestamp := strftime (utcnow W (S (ticks s))) in
    match _session c with
    | JObj members =>
        match dict_get "session_id" members with
        | JStr session_id =>
            (Return (_BASE_URL c ++ String.concat "/"
                       ([methodname ++ "Json"; dev_id c; signature; session_id;
                         timestamp] ++ params_strs parameters)),
             advance s 2 0 [])
        | _ => (Raise TypeError, advance s 2 0 [])
        end
    | _ => (Raise AttributeError, advance s 2 0 [])
    end.
Proof.
  cbv zeta. unfold spec_signature. rewrite !encode_utf8_app.
  unfold SmiteClient._build_request_url. unfold_monad.
  rewrite app_nil_r.
  destruct (_session (self s)); cbn [py_get]; try reflexivity.
  destruct (dict_get "session_id" members) eqn:E;
    try (destruct parameters as [[|p ps]|];
         cbn [app str_join all_str]; reflexivity).
  unfold SmiteClient._RESPONSE_FORMAT.
  destruct parameters as [[|p ps]|]; cbn [params_strs map app];
    rewrite ?app_nil_r; cbn [str_join all_str]; try reflexivity.
  unfold str_join. cbn [all_str].
  rewrite <- (map_map py_str JStr), all_str_strs. reflexivity.
Qed.

Lemma dispatch_eq (W : world) (methodname : string)
    (parameters : option (list pyval)) (s : state) :
  dispatch W methodname parameters s =
    match SmiteClient._build_request_url W methodname parameters s with
    | (Return built, s1) =>
        let url := replace_spaces built in
        let answer := urlopen W (fetched s1) url in
        let evs := [EvLog (Log_built_url methodname url);
                    EvUrlopen In_make_request url answer] in
        match answer with
        | Resp_body (Body_json j) =>
            if truthy j then (Return j, advance s1 0 1 evs)
            else (Raise (NoResultError msg_no_data),
                  advance s1 0 1 (evs ++ [EvLog (Log_smite_error msg_no_data)]))
        | Resp_body Body_garbage => (Raise ValueError, advance s1 0 1 evs)
        | Resp_HTTPError code =>
            if code =? 404 then
              (Raise (NoResultError msg_request_404),
               advance s1 0 1 (evs ++ [EvLog (Log_smite_error msg_request_404)]))
            else if code =? 400 then
              (Raise (NoResultError msg_request_400),
               advance s1 0 1 (evs ++ [EvLog (Log_smite_error msg_request_400)]))
            else (Raise (UnboundLocalError "html"),
                  advance s1 0 1 (evs ++ [EvPrintExc code]))
        | Resp_URLError => (Raise URLError, advance s1 0 1 evs)
        end
    | (Raise e, s1) => (Raise e, s1)
    end.
Proof.
  unfold dispatch, msg_no_data, msg_request_404, msg_request_400.
  unfold bind at 1.
  destruct (SmiteClient._build_request_url W methodname parameters s)
    as [[built|e] s1]; [|reflexivity].
  cbv zeta. unfold_monad.
  destruct (urlopen W (fetched s1) _) as [[j|]|code|];
    cbn [self ticks fetched trace]; rewrite <- ?app_assoc; try reflexivity.
  - destruct (truthy j); cbn [negb self ticks fetched trace];
      rewrite <- ?app_assoc; reflexivity.
  - destruct (code =? 404); [|destruct (code =? 400)];
      cbn [self ticks fetched trace]; rewrite <- !app_assoc; reflexivity.
Qed.

Lemma ensure_session_eq (W : world) (s : state) :
  ensure_session W s =
    let create_from (s0 : state) :=
      match SmiteClient._create_session W
              (advance s0 0 0 [EvLog Log_creating_session]) with
      | (Return j, s1) => (Return tt, store j s1)
      | (Raise e, s1) => (Raise e, s1)
      end in
    if truthy (_session (self s)) then
      match SmiteClient._test_session W (_session (self s)) s with
      | (Return true, s1) => (Return tt, s1)
      | (Return false, s1) => create_from s1
      | (Raise e, s1) => (Raise e, s1)
      end
    else create_from s.
Proof.
  cbv zeta. unfold ensure_session.
  unfold bind at 1, get_self at 1.
  destruct (truthy (_session (self s))); cbn [negb].
  - unfold bind at 1. unfold bind at 1.
    destruct (SmiteClient._test_session W (_session (self s)) s)
      as [[[|]|e] s1]; reflexivity.
  - reflexivity.
Qed.

Lemma make_request_phases (W : world) (methodname : string)
    (parameters : option (list pyval)) (s : state) :
  SmiteClient._make_request W methodname parameters s =
    match ensure_session W s with
    | (Return _, s1) => dispatch W methodname parameters s1
    | (Raise e, s1) => (Raise e, s1)
    end.
Proof.
  unfold SmiteClient._make_request, ensure_session, dispatch, bind, get_self,
    ret, emit.
  destruct (truthy (_session (self s))); cbn [negb].
  - destruct (SmiteClient._test_session W _ s) as [[[|]|e] s1]; reflexivity.
  - destruct (SmiteClient._create_session W _) as [[j|e] s2]; reflexivity.
Qed.

(* ================================================================== *)
(** ** The shape of every run *)

Lemma skipn_length_app {A} (l evs : list A) :
  skipn (List.length l) (l ++ evs)%list = evs.
Proof. induction l; simpl; auto. Qed.

Lemma new_events_app (s s' : state) (evs : list event) :
  trace s' = (trace s ++ evs)%list -> new_events s s' = evs.
Proof. unfold new_events. intros ->. apply skipn_length_app. Qed.

Lemma create_session_run (W : world) (s : state) (r : result json) (s1 : state) :
  SmiteClient._create_session W s = (r, s1) ->
  self s1 = self s /\
  exists url answer,
    trace s1 = (trace s ++ EvUrlopen In_create_session url answer
                  :: session_tail msg_create_404 answer)%list
    /\ r = session_result msg_create_404 answer.
Proof.
  rewrite create_session_eq. cbv zeta.
  set (url := (_BASE_URL (self s) ++ _)%string).
  intros H. split; [|exists url, (urlopen W (fetched s) url)].
  - destruct (urlopen W (fetched s) url) as [[j|]|code|];
      [| |destruct (code =? 404)|]; inversion H; reflexivity.
  - unfold session_result, session_tail.
    destruct (urlopen W (fetched s) url) as [[j|]|code|];
      [| |destruct (code =? 404)|]; inversion H; split; reflexivity.
Qed.

Lemma test_session_run (W : world) (session : json) (s : state)
    (r : result bool) (s1 : state) :
  SmiteClient._test_session W session s = (r, s1) ->
  self s1 = self s /\
  ((trace s1 = trace s /\ (r = Raise AttributeError \/ r = Raise TypeError))
   \/ exists url answer,
        trace s1 = (trace s ++ probe_events url answer
                      ++ session_tail msg_test_404 answer)%list
        /\ r = probe_result answer).
Proof.
  rewrite test_session_eq. cbv zeta. intros H.
  destruct session as [| | | | |?|members];
    try (inversion H; cbn [self trace advance]; rewrite app_nil_r; auto).
  destruct (dict_get "session_id" members) as [| | | |sid| |];
    try (inversion H; cbn [self trace advance]; rewrite app_nil_r; auto).
  revert H. set (url := (_BASE_URL (self s) ++ _)%string). intros H.
  split; [|right; exists url, (urlopen W (fetched s) url)].
  - destruct (urlopen W (fetched s) url) as [[j|]|code|];
      [| |destruct (code =? 404)|]; inversion H; reflexivity.
  - unfold probe_result, session_result, session_tail, probe_events.
    destruct (urlopen W (fetched s) url) as [[j|]|code|];
      [| |destruct (code =? 404)|]; inversion H;
      cbn [trace advance app json_loads_decode]; rewrite ?app_nil_r;
      split; reflexivity.
Qed.

Lemma dispatch_run (W : world) (methodname : string)
    (parameters : option (list pyval)) (s : state) (r : result json)
    (s1 : state) :
  dispatch W methodname parameters s = (r, s1) ->
  self s1 = self s /\
  ((trace s1 = trace s /\ (r = Raise AttributeError \/ r = Raise TypeError))
   \/ exists url answer,
        trace s1 = (trace s ++ request_events methodname url answer
                      ++ request_tail answer)%list
        /\ r = request_result answer).
Proof.
  rewrite dispatch_eq, build_request_url_eq. cbv zeta. intros H.
  destruct (_session (self s)) as [| | | | |?|members];
    try (inversion H; cbn [self trace advance]; rewrite app_nil_r; auto).
  destruct (dict_get "session_id" members) as [| | | |sid| |];
    try (inversion H; cbn [self trace advance]; rewrite app_nil_r; auto).
  revert H. cbn [fetched advance self trace Nat.add].
  set (url := replace_spaces _). intros H.
  split; [|right; exists url, (urlopen W (fetched s) url)].
  - destruct (urlopen W (fetched s) url) as [[j|]|code|];
      [destruct (truthy j)| |destruct (code =? 404); [|destruct (code =? 400)]|];
      inversion H; reflexivity.
  - unfold request_result, request_tail, request_events.
    destruct (urlopen W (fetched s) url) as [[j|]|code|];
      cbn [json_loads_decode];
      [destruct (truthy j)| |destruct (code =? 404); [|destruct (code =? 400)]|];
      inversion H; cbn [trace advance app];
      rewrite ?app_nil_r; split; reflexivity.
Qed.

Lemma session_tail_of_return (msg : string) (answer : response) (j : json) :
  session_result msg answer = Return j -> session_tail msg answer = [].
Proof.
  destruct answer as [[?|]|code|]; cbn; try reflexivity.
  destruct (code =? 404); discriminate.
Qed.

Lemma probe_tail_of_return (answer : response) (alive : bool) :
  probe_result answer = Return alive -> session_tail msg_test_404 answer = [].
Proof.
  unfold probe_result.
  destruct (session_result msg_test_404 answer) eqn:E; [|discriminate].
  intros _. eapply session_tail_of_return, E.
Qed.

Lemma create_from_run (W : world) (s0 : state) (r : result unit) (s1 : state) :
  match SmiteClient._create_session W
          (advance s0 0 0 [EvLog Log_creating_session]) with
  | (Return j, s2) => (Return tt, store j s2)
  | (Raise e, s2) => (Raise e, s2)
  end = (r, s1) ->
  exists url answer,
    (exists j, session_result msg_create_404 answer = Return j
               /\ r = Return tt /\ self s1 = with_session j (self s0)
               /\ trace s1 = (trace s0 ++ create_events url answer)%list)
    \/ (exists e, session_result msg_create_404 answer = Raise e
                  /\ r = Raise e /\ self s1 = self s0
                  /\ trace s1 = (trace s0 ++ create_events url answer
                                   ++ session_tail msg_create_404 answer)%list).
Proof.
  destruct (SmiteClient._create_session W _) as [[j|e] s2] eqn:E; intros H;
    apply create_session_run in E as (Hself & url & answer & Htr & Hr);
    exists url, answer; [left; exists j|right; exists e];
    inversion H; subst s1; cbn [self trace store];
    rewrite Htr, Hself; cbn [self trace advance create_events];
    rewrite <- app_assoc; cbn [app]; rewrite <- ?Hr; repeat split; auto.
  symmetry in Hr. now rewrite (session_tail_of_return _ _ _ Hr).
Qed.

Lemma ensure_session_run (W : world) (s : state) (r : result unit) (s1 : state) :
  ensure_session W s = (r, s1) ->
  exists evs, trace s1 = (trace s ++ evs)%list
              /\ ensure_shape (self s) r (self s1) evs.
Proof.
  rewrite ensure_session_eq. cbv beta zeta.
  destruct (truthy (_session (self s))) eqn:Held.
  - destruct (SmiteClient._test_session W _ s) as [[[|]|e] s0] eqn:Et;
      apply test_session_run in Et
        as [Hself [[Htr [Hr|Hr]]|(url & answer & Htr & Hr)]];
      try discriminate; intros H.
    + inversion H; subst. symmetry in Hr.
      rewrite (probe_tail_of_return _ _ Hr), app_nil_r in Htr.
      eexists; split; [exact Htr|]. rewrite Hself. now apply Ensure_alive.
    + symmetry in Hr.
      rewrite (probe_tail_of_return _ _ Hr), app_nil_r in Htr.
      apply create_from_run in H
        as (curl & canswer & [(j & Hj & -> & Hs & Ht)|(e & He & -> & Hs & Ht)]);
        rewrite Ht, Htr, Hs, Hself, <- app_assoc;
        (eexists; split; [reflexivity|]).
      * apply Ensure_renewed; [now apply Renew_expired|exact Hj].
      * apply Ensure_create_raised; [now apply Renew_expired|exact He].
    + inversion H; subst. inversion Hr; subst.
      exists []. rewrite app_nil_r, Hself. split; [exact Htr|].
      apply Ensure_unusable; auto.
    + inversion H; subst. inversion Hr; subst.
      exists []. rewrite app_nil_r, Hself. split; [exact Htr|].
      apply Ensure_unusable; auto.
    + inversion H; subst. eexists; split; [exact Htr|]. rewrite Hself.
      apply Ensure_probe_raised; auto.
  - intros H.
    apply create_from_run in H
      as (curl & canswer & [(j & Hj & -> & Hs & Ht)|(e & He & -> & Hs & Ht)]);
      rewrite Ht, Hs; (eexists; split; [reflexivity|]).
    + apply (Ensure_renewed _ []); [now apply Renew_absent|exact Hj].
    + apply (Ensure_create_raised _ []); [now apply Renew_absent|exact He].
Qed.

(** Every run of [_make_request] has one of the shapes. *)
Lemma make_request_run (W : world) (methodname : string)
    (parameters : option (list pyval)) (s : state) (r : result json)
    (s' : state) :
  SmiteClient._make_request W methodname parameters s = (r, s') ->
  trace s' = (trace s ++ new_events s s')%list
  /\ request_shape methodname (self s) r (self s') (new_events s s').
Proof.
  rewrite make_request_phases.
  destruct (ensure_session W s) as [[[]|e] s1] eqn:E;
    apply ensure_session_run in E as (evs & Htr & Hshape); intros H.
  - apply dispatch_run in H
      as [Hself [[Htr' [Hr|Hr]]|(url & answer & Htr' & Hr)]];
      rewrite Hself; subst r.
    + rewrite (new_events_app s s' evs) by congruence.
      split; [congruence|]. apply Request_no_url; auto.
    + rewrite (new_events_app s s' evs) by congruence.
      split; [congruence|]. apply Request_no_url; auto.
    + assert (Hall : trace s' = (trace s ++ evs
                 ++ request_events methodname url answer
                 ++ request_tail answer)%list)
        by (rewrite Htr', Htr, <- app_assoc; reflexivity).
      rewrite (new_events_app s s' _ Hall).
      split; [exact Hall|]. now apply Request_sent.
  - inversion H; subst. rewrite (new_events_app s s' evs Htr).
    split; [exact Htr|]. now apply Request_no_session.
Qed.

(* ================================================================== *)
(** ** Where a request shows up in the trace *)

Lemma in_session_tail (e : event) (msg : string) (answer : response) :
  In e (session_tail msg answer) -> is_urlopen e = false.
Proof.
  destruct answer as [?|code|]; cbn; try tauto.
  destruct (code =? 404); cbn; intros [<-|[]]; reflexivity.
Qed.

Lemma in_request_tail (e : event) (answer : response) :
  In e (request_tail answer) -> is_urlopen e = false.
Proof.
  destruct answer as [[j|]|code|]; cbn; try tauto.
  - destruct (truthy j); cbn; [tauto|intros [<-|[]]; reflexivity].
  - destruct (code =? 404); [|destruct (code =? 400)]; cbn;
      intros [<-|[]]; reflexivity.
Qed.

(** Splits [In e evs] over the parts of a shape, keeping the cases where
    [e] is the request of a part. *)
Ltac pick_fetch Hin :=
  repeat (rewrite in_app_iff in Hin);
  cbn [In probe_events create_events request_events] in Hin;
  repeat match type of Hin with
    | _ \/ _ => destruct Hin as [Hin|Hin]
    | False => destruct Hin
    | EvLog _ = _ => discriminate Hin
    | EvUrlopen _ _ _ = EvUrlopen _ _ _ => inversion Hin; subst; clear Hin
    | In _ (session_tail _ _) => apply in_session_tail in Hin; discriminate Hin
    | In _ (request_tail _) => apply in_request_tail in Hin; discriminate Hin
    end.

Ltac invert_shape H :=
  inversion H; subst; clear H;
  try match goal with
    | R : renewing _ _ |- _ => inversion R; subst; clear R
    end.

Ltac prefix_of_events :=
  first [ now exists [] | now (eexists [_]) | now (eexists [_; _])
        | now (eexists [_; _; _]) | now (eexists [_; _; _; _])
        | now (eexists [_; _; _; _; _]) ].

(** C6. Whenever the transport answers HTTP 404 to the request of
    [_create_session] or of [_test_session], the call fails with the
    [NoResultError] of that method (the specification's SessionError), and
    the run ends there: after the refused request only the error is logged,
    so nothing is retried and nothing else is requested. *)
Theorem session_404_raises (W : world) (methodname : string)
    (parameters : option (list pyval)) (s s' : state) (r : result json)
    (at_site : site) (url : string) :
  SmiteClient._make_request W methodname parameters s = (r, s') ->
  In (EvUrlopen at_site url (Resp_HTTPError 404)) (new_events s s') ->
  at_site = In_create_session \/ at_site = In_test_session ->
  r = Raise (NoResultError (session_msg_404 at_site))
  /\ exists before,
       new_events s s' =
         (before ++ [EvUrlopen at_site url (Resp_HTTPError 404);
                     EvLog (Log_smite_error (session_msg_404 at_site))])%list.
Proof.
  intros H Hin Hsite. apply make_request_run in H as [_ H].
  revert H Hin. generalize (new_events s s') as evs.
  generalize (self s') as c'. generalize (self s) as c.
  intros c c' evs H Hin.
  inversion H as [e c1 evsE He|e c1 evsE He|c1 evsE u ans He]; subst; clear H;
    invert_shape He; pick_fetch Hin;
    try (destruct Hsite; discriminate);
    repeat match goal with
      | P : probe_result (Resp_HTTPError 404) = _ |- _ => cbn in P; inversion P; subst; clear P
      | P : session_result _ (Resp_HTTPError 404) = _ |- _ => cbn in P; inversion P; subst; clear P
      end;
    (split; [reflexivity|]); cbn; prefix_of_events.
Qed.

(** What [_make_request] returns is decided by the answer to its own
    request, whenever that request was made. *)
Lemma request_answer_decides (W : world) (methodname : string)
    (parameters : option (list pyval)) (s s' : state) (r : result json)
    (url : string) (answer : response) :
  SmiteClient._make_request W methodname parameters s = (r, s') ->
  In (EvUrlopen In_make_request url answer) (new_events s s') ->
  r = request_result answer
  /\ exists before,
       new_events s s' =
         (before ++ EvUrlopen In_make_request url answer
            :: request_tail answer)%list.
Proof.
  intros H Hin. apply make_request_run in H as [_ H].
  revert H Hin. generalize (new_events s s') as evs.
  generalize (self s') as c'. generalize (self s) as c.
  intros c c' evs H Hin.
  inversion H as [e c1 evsE He|e c1 evsE He|c1 evsE u ans He]; subst; clear H;
    invert_shape He; pick_fetch Hin;
    (split; [reflexivity|]); cbn [app probe_events create_events request_events];
    rewrite <- ?app_assoc; cbn [app]; prefix_of_events.
Qed.

(** C3. When the transport answers the request of [_make_request] with an
    HTTP error other than 404 and 400, the traceback is printed, the error
    itself is not raised again: the call goes on to [html.decode] with [html]
    unbound and fails with an [UnboundLocalError]. *)
Theorem other_http_error_not_reraised (W : world) (methodname : string)
    (parameters : option (list pyval)) (s s' : state) (r : result json)
    (url : string) (code : Z) :
  SmiteClient._make_request W methodname parameters s = (r, s') ->
  In (EvUrlopen In_make_request url (Resp_HTTPError code)) (new_events s s') ->
  code <> 404 -> code <> 400 ->
  r = Raise (UnboundLocalError "html")
  /\ r <> Raise (HTTPError code)
  /\ exists before,
       new_events s s' =
         (before ++ [EvUrlopen In_make_request url (Resp_HTTPError code);
                     EvPrintExc code])%list.
Proof.
  intros H Hin H404 H400.
  destruct (request_answer_decides _ _ _ _ _ _ _ _ H Hin) as [-> Hevs].
  cbn in Hevs |- *.
  apply Z.eqb_neq in H404, H400. rewrite H404, H400 in *.
  repeat split; [discriminate | exact Hevs].
Qed.

(** C8. Whenever the answer to the request of [_make_request] parses to an
    empty value, [{}], [[]] or [null], the call fails with the
    [NoResultError] for no data (the specification's EmptyResultError),
    whatever the base URL, the method and the parameters. *)
Theorem empty_payload_raises (W : world) (methodname : string)
    (parameters : option (list pyval)) (s s' : state) (r : result json)
    (url : string) (payload : json) :
  SmiteClient._make_request W methodname parameters s = (r, s') ->
  In (EvUrlopen In_make_request url (Resp_body (Body_json payload)))
     (new_events s s') ->
  payload = JObj [] \/ payload = JArr [] \/ payload = JNull ->
  r = Raise (NoResultError msg_no_data).
Proof.
  intros H Hin Hempty.
  destruct (request_answer_decides _ _ _ _ _ _ _ _ H Hin) as [-> _].
  destruct Hempty as [->|[->| ->]]; reflexivity.
Qed.

(* ================================================================== *)
(** ** ping, and runs of public calls *)

Lemma ping_eq (W : world) (s : state) :
  SmiteClient.ping W s =
    let url := _BASE_URL (self s) ++ "/pingJson" in
    let answer := urlopen W (fetched s) url in
    (match answer with
     | Resp_body b => json_loads_decode (Some b)
     | Resp_HTTPError code => Raise (HTTPError code)
     | Resp_URLError => Raise URLError
     end,
     advance s 0 1 [EvUrlopen In_ping url answer]).
Proof.
  cbv zeta. unfold SmiteClient.ping. unfold_monad.
  destruct (urlopen W (fetched s) _) as [b| |]; reflexivity.
Qed.

Lemma invoke_cases (W : world) (call : public_call) (s : state) :
  call = Ping \/
  exists methodname parameters,
    invoke W call s = SmiteClient._make_request W methodname parameters s.
Proof.
  destruct call; [left; reflexivity|right; eexists; eexists; reflexivity..].
Qed.

Lemma invoke_extends (W : world) (call : public_call) (s s' : state)
    (r : result json) :
  invoke W call s = (r, s') -> trace s' = (trace s ++ new_events s s')%list.
Proof.
  destruct (invoke_cases W call s) as [->|(m & p & ->)].
  - cbn [invoke]. rewrite ping_eq. cbv zeta. intros H. injection H as _ <-.
    erewrite new_events_app by reflexivity. reflexivity.
  - intros H. now apply make_request_run in H.
Qed.

Lemma run_calls_extends (W : world) (calls : list public_call) :
  forall (s s' : state) (rs : list (result json)),
    run_calls W calls s = (rs, s') ->
    trace s' = (trace s ++ new_events s s')%list.
Proof.
  induction calls as [|call rest IH]; intros s s' rs H; cbn in H.
  - inversion H; subst. unfold new_events.
    now rewrite skipn_all, app_nil_r.
  - destruct (invoke W call s) as [r s1] eqn:E1.
    destruct (run_calls W rest s1) as [rs' s2] eqn:E2.
    inversion H; subst. apply invoke_extends in E1. apply IH in E2.
    assert (Hall : trace s' = (trace s ++ new_events s s1 ++ new_events s1 s')%list)
      by (rewrite E2, E1 at 1; now rewrite <- app_assoc).
    now rewrite (new_events_app s s' _ Hall).
Qed.

Lemma new_events_step (W : world) (call : public_call)
    (rest : list public_call) (s s1 s' : state) (r : result json)
    (rs : list (result json)) :
  invoke W call s = (r, s1) -> run_calls W rest s1 = (rs, s') ->
  new_events s s' = (new_events s s1 ++ new_events s1 s')%list.
Proof.
  intros E1 E2. apply invoke_extends in E1. apply run_calls_extends in E2.
  apply new_events_app. rewrite E2, E1 at 1. now rewrite <- app_assoc.
Qed.

(** One request on a held session whose probe, if it is made, finds the
    session alive: the object is as before and nothing creates a session. *)
Lemma make_request_keeps_session (W : world) (methodname : string)
    (parameters : option (list pyval)) (s s' : state) (r : result json) :
  truthy (_session (self s)) = true ->
  SmiteClient._make_request W methodname parameters s = (r, s') ->
  (forall url answer,
     In (EvUrlopen In_test_session url answer) (new_events s s') ->
     probe_result answer = Return true) ->
  self s' = self s
  /\ forallb (fun e => negb (is_creation e)) (new_events s s') = true.
Proof.
  intros Held H Halive. apply make_request_run in H as [_ H].
  revert H Halive Held. generalize (new_events s s') as evs.
  generalize (self s') as c'. generalize (self s) as c.
  intros c c' evs H Halive Held.
  assert (Hp : forall url answer before after,
             evs = (before ++ probe_events url answer ++ after)%list ->
             probe_result answer = Return true).
  { intros url answer before after ->. apply (Halive url).
    rewrite !in_app_iff. cbn. tauto. }
  clear Halive.
  inversion H as [e c1 evsE He|e c1 evsE He|c1 evsE u ans He]; subst; clear H;
    invert_shape He; try congruence;
    try match goal with
      | P : probe_result ?a = _ |- _ =>
          first [ rewrite (Hp _ a [] nil) in P by (now rewrite app_nil_r)
                | rewrite (Hp _ a [] _ eq_refl) in P
                | rewrite (Hp _ a [] _ (eq_sym (app_assoc _ _ _))) in P ];
          try discriminate
      end;
    (split; [reflexivity|]); rewrite ?forallb_app; cbn;
    repeat match goal with
      | |- context [request_tail ?a] =>
          let F := fresh in
          assert (F : forallb (fun e => negb (is_creation e)) (request_tail a) = true)
            by (destruct a as [[j|]|code|]; cbn;
                [destruct (truthy j)| |destruct (code =? 404); [|destruct (code =? 400)]|];
                reflexivity);
          rewrite F; clear F
      end; reflexivity.
Qed.

(** C9. While the held session stays valid, that is, every liveness probe
    made during the calls finds it alive, any sequence of public calls leaves
    the object and the session stored in it as they were and never invokes
    session creation: the trace of the calls holds neither the log record of
    a creation nor a createsession request. *)
Theorem valid_session_never_recreated (W : world) (calls : list public_call)
    (s s' : state) (results : list (result json)) :
  truthy (_session (self s)) = true ->
  run_calls W calls s = (results, s') ->
  (forall url answer,
     In (EvUrlopen In_test_session url answer) (new_events s s') ->
     probe_result answer = Return true) ->
  self s' = self s
  /\ forallb (fun e => negb (is_creation e)) (new_events s s') = true.
Proof.
  revert s s' results.
  induction calls as [|call rest IH]; intros s s' results Held H Halive;
    cbn in H.
  - inversion H; subst. unfold new_events. now rewrite skipn_all.
  - destruct (invoke W call s) as [r s1] eqn:E1.
    destruct (run_calls W rest s1) as [rs s2] eqn:E2.
    inversion H; subst; clear H.
    rewrite (new_events_step _ _ _ _ _ _ _ _ E1 E2) in *.
    assert (Hfirst : self s1 = self s
              /\ forallb (fun e => negb (is_creation e)) (new_events s s1) = true).
    { destruct (invoke_cases W call s) as [->|(m & p & Hm)].
      - cbn [invoke] in E1. rewrite ping_eq in E1. cbv zeta in E1.
        injection E1 as _ <-. split; [reflexivity|].
        erewrite new_events_app by reflexivity. reflexivity.
      - rewrite Hm in E1.
        apply (make_request_keeps_session _ _ _ _ _ _ Held E1).
        intros url answer Hin. apply (Halive url). apply in_or_app. now left. }
    destruct Hfirst as [Hself Hquiet].
    destruct (IH s1 s' rs) as [Hself' Hquiet'].
    + now rewrite Hself.
    + exact E2.
    + intros url answer Hin. apply (Halive url). apply in_or_app. now right.
    + split; [congruence|]. now rewrite forallb_app, Hquiet, Hquiet'.
Qed.

(* ================================================================== *)
(** ** Endpoint switching *)

(** C7. For every value that is not a member of the [Endpoint] enum,
    [_switch_endpoint] fails with a [SmiteError] (the specification's
    ConfigError); only the error is logged, and the base URL, like the rest
    of the object, is as before. *)
Theorem switch_endpoint_rejects (endpoint : pyval) (s : state) :
  (forall e, endpoint <> PEndpoint e) ->
  SmiteClient._switch_endpoint endpoint s
  = (Raise (SmiteError "You need to use an enum to switch endpoints"),
     advance s 0 0
       [EvLog (Log_smite_error "You need to use an enum to switch endpoints")])
  /\ _BASE_URL (self (snd (SmiteClient._switch_endpoint endpoint s)))
     = _BASE_URL (self s).
Proof.
  intros Hother.
  destruct endpoint as [|z|str|e]; try (split; reflexivity).
  now destruct (Hother e).
Qed.

Lemma switch_endpoint_rejects_witness :
  (forall e, PStr "http://api.xbox.smitegame.com/smiteapi.svc/" <> PEndpoint e)
  /\ _BASE_URL (self (snd (SmiteClient._switch_endpoint
                            (PStr "http://api.xbox.smitegame.com/smiteapi.svc/")
                            client_123)))
     = Endpoint_value PC.
Proof.
  split; [discriminate|].
  apply (switch_endpoint_rejects
           (PStr "http://api.xbox.smitegame.com/smiteapi.svc/") client_123).
  discriminate.
Defined.

(** A member of the enum is accepted: its URL becomes the base URL. *)
Lemma switch_endpoint_accepts (e : Endpoint) (s : state) :
  fst (SmiteClient._switch_endpoint (PEndpoint e) s) = Return tt
  /\ _BASE_URL (self (snd (SmiteClient._switch_endpoint (PEndpoint e) s)))
     = Endpoint_value e.
Proof. split; reflexivity. Qed.

(* ================================================================== *)
(** ** ping *)

(** C10, as the code has it. [ping] performs exactly one GET, of
    [_BASE_URL + "/pingJson"]; it does not read the clock, so no timestamp
    and no signature is made, it neither probes nor creates a session, and
    it leaves the object (session slot, credentials, base URL) unchanged. *)
Theorem ping_one_plain_get (W : world) (s : state) :
  let url := _BASE_URL (self s) ++ "/pingJson" in
  let answer := urlopen W (fetched s) url in
  let s' := snd (SmiteClient.ping W s) in
  new_events s s' = [EvUrlopen In_ping url answer]
  /\ self s' = self s
  /\ ticks s' = ticks s
  /\ fetched s' = S (fetched s).
Proof.
  cbv zeta. rewrite ping_eq. cbv zeta. cbn [snd].
  repeat split. now apply new_events_app.
Qed.

(** C10 as stated fails: the URL requested is not [_BASE_URL + "pingJson"];
    on the default endpoint it has two slashes before [pingJson]. *)
Lemma ping_url_has_extra_slash :
  let W := uniform_world a_clock TestGod in
  let s' := snd (SmiteClient.ping W client_123) in
  new_events client_123 s'
  = [EvUrlopen In_ping "http://api.smitegame.com/smiteapi.svc//pingJson"
       (ok TestGod)]
  /\ ~ In (EvUrlopen In_ping (_BASE_URL (self client_123) ++ "pingJson")
            (ok TestGod))
         (new_events client_123 s').
Proof.
  cbv zeta. split; [vm_compute; reflexivity|].
  vm_compute. intros [H|[]]. discriminate H.
Qed.

(* ================================================================== *)
(** ** The liveness probe *)

(** C5, as the code has it. For a held session that is an object with a
    string [session_id], [_test_session] requests the signed testsession URL
    that embeds this identifier, and its result is [marker in reply] on the
    parsed reply: for a JSON string, true exactly when the string contains
    the marker; for an object, when the marker is one of its keys; for an
    array, when the marker is one of its elements; any other value raises
    [TypeError]. *)
Theorem probe_result_by_reply (W : world) (s : state)
    (members : list (string * json)) (session_id : string) (reply : json) :
  let c := self s in
  let timestamp := strftime (utcnow W (ticks s)) in
  let signature :=
    spec_signature (dev_id c) "testsession" (auth_key c)
      (strftime (utcnow W (S (ticks s)))) in
  let url := _BASE_URL c ++ "testsessionJson" ++ "/" ++ dev_id c ++ "/"
             ++ signature ++ "/" ++ session_id ++ "/" ++ timestamp in
  dict_get "session_id" members = JStr session_id ->
  urlopen W (fetched s) url = ok reply ->
  SmiteClient._test_session W (JObj members) s
  = (py_in "successful" reply, advance s 2 1 (probe_events url (ok reply)))
  /\ match reply with
     | JStr text =>
         py_in "successful" reply = Return (str_contains "successful" text)
         /\ (str_contains "successful" text = true <->
             exists before after, text = before ++ "successful" ++ after)
     | JObj items =>
         py_in "successful" reply = Return (dict_has_key "successful" items)
     | JArr items =>
         py_in "successful" reply
         = Return (existsb (eq_str "successful") items)
     | _ => py_in "successful" reply = Raise TypeError
     end.
Proof.
  cbv zeta. intros Hid Hanswer. split.
  - rewrite test_session_eq. cbv zeta. rewrite Hid.
    change (String.concat "/"
              ["testsessionJson"; dev_id (self s);
               spec_signature (dev_id (self s)) "testsession"
                 (auth_key (self s))
                 (strftime (utcnow W (S (ticks s))));
               session_id; strftime (utcnow W (ticks s))])
      with ("testsessionJson" ++ "/" ++ dev_id (self s) ++ "/"
            ++ spec_signature (dev_id (self s)) "testsession"
                 (auth_key (self s))
                 (strftime (utcnow W (S (ticks s))))
            ++ "/" ++ session_id ++ "/" ++ strftime (utcnow W (ticks s))).
    rewrite Hanswer. reflexivity.
  - destruct reply; try reflexivity.
    split; [reflexivity|apply str_contains_split].
Qed.

Lemma probe_result_by_reply_witness :
  let s := client_123_in_session in
  let W := scenario_world a_clock in
  let url :=
    "http://api.smitegame.com/smiteapi.svc/testsessionJson/123/691ded3e1390484b95cab82ba7cd5d98/0123456789ABCDEF0123456789ABCDEF/20240102030405" in
  dict_get "session_id"
    [("ret_msg", JStr "Approved");
     ("session_id", JStr "0123456789ABCDEF0123456789ABCDEF");
     ("timestamp", JStr "1/2/2024 3:04:05 AM")]
  = JStr "0123456789ABCDEF0123456789ABCDEF"
  /\ urlopen W (fetched s) url = ok probe_yes
  /\ SmiteClient._test_session W a_session s
     = (Return true, advance s 2 1 (probe_events url (ok probe_yes))).
Proof.
  cbv zeta. split; [reflexivity|]. split; [vm_compute; reflexivity|].
  destruct (probe_result_by_reply (scenario_world a_clock)
              client_123_in_session
              [("ret_msg", JStr "Approved");
               ("session_id", JStr "0123456789ABCDEF0123456789ABCDEF");
               ("timestamp", JStr "1/2/2024 3:04:05 AM")]
              "0123456789ABCDEF0123456789ABCDEF" probe_yes)
    as [Hrun _]; [vm_compute; reflexivity..|].
  etransitivity; [exact Hrun|]. vm_compute. reflexivity.
Defined.

(** C5 as stated fails: a reply that is not a bare string can contain the
    marker and still be judged not alive (here the marker sits in a value of
    an object, and [in] looks at the keys); and a held session without a
    string identifier makes the probe raise before anything is requested. *)
Lemma probe_misses_wrapped_marker :
  let W := world_of (ok a_session) (ok wrapped_yes) (ok TestGod) in
  mentions "successful" wrapped_yes = true
  /\ fst (SmiteClient._test_session W a_session client_123_in_session)
     = Return false
  /\ ~ spec_probe W a_session client_123_in_session wrapped_yes
  /\ SmiteClient._test_session W TestGod (store TestGod client_123)
     = (Raise TypeError, advance (store TestGod client_123) 2 0 []).
Proof.
  cbv zeta. unfold spec_probe. repeat split; try (vm_compute; reflexivity).
  vm_compute. discriminate.
Qed.

(* ================================================================== *)
(** ** The session slot *)

(** What one request does to the session slot: it changes only by storing
    the parsed response of a createsession request; such a response is
    always stored; an unparsed one leaves the slot alone; and a createsession
    request is made exactly when the slot was empty or the probe came back
    false. *)
Lemma make_request_slot (W : world) (methodname : string)
    (parameters : option (list pyval)) (s s' : state) (r : result json) :
  SmiteClient._make_request W methodname parameters s = (r, s') ->
  let evs := new_events s s' in
  let created url answer := In (EvUrlopen In_create_session url answer) evs in
  let expired :=
    exists url answer, In (EvUrlopen In_test_session url answer) evs
                       /\ probe_result answer = Return false in
  (self s' = self s
   \/ exists url j, created url (ok j) /\ self s' = with_session j (self s))
  /\ (forall url j, created url (ok j) -> self s' = with_session j (self s))
  /\ (forall url answer, created url answer ->
        (forall j, answer <> ok j) -> self s' = self s)
  /\ ((exists url answer, created url answer)
      <-> truthy (_session (self s)) = false \/ expired).
Proof.
  intros H. apply make_request_run in H as [_ H]. cbv zeta.
  revert H. generalize (new_events s s') as evs.
  generalize (self s') as c'. generalize (self s) as c.
  intros c c' evs H.
  assert (Hok : forall msg a j, session_result msg a = Return j -> a = ok j).
  { intros msg [[j0|]|code|] j; cbn; try discriminate;
      [now intros [= ->]|destruct (code =? 404); discriminate]. }
  assert (Hbad : forall msg a e j, session_result msg a = Raise e -> a <> ok j).
  { intros msg a e j Ha ->. discriminate Ha. }
  inversion H as [e c1 evsE He|e c1 evsE He|c1 evsE u ans He]; subst; clear H;
    invert_shape He;
    repeat match goal with
      | P : session_result _ _ = Return _ |- _ => apply Hok in P; subst
      end;
    (split; [|split; [|split; [|split]]]).
  all: try (left; reflexivity).
  all: try (right; eexists; eexists; split; [|reflexivity];
            rewrite ?in_app_iff; cbn; tauto).
  all: try (intros url' j' Hin; pick_fetch Hin; try reflexivity;
            match goal with
            | P : session_result _ (ok _) = Raise _ |- _ => discriminate P
            end).
  all: try (intros url' a' Hin Hno; pick_fetch Hin; try reflexivity;
            now destruct (Hno _ eq_refl)).
  all: try (intros [url' [a' Hin]]; pick_fetch Hin;
            first [ left; assumption
                  | right; eexists; eexists; split; [|eassumption];
                    rewrite ?in_app_iff; cbn; tauto ]).
  all: try (intros _; eexists; eexists; rewrite ?in_app_iff; cbn; tauto).
  all: try (intros [Habs|[url' [a' [Hin Hexp]]]]; [congruence|];
            pick_fetch Hin; congruence).
Qed.

(** C4, as the code has it. Over one request, the session slot changes only
    by storing the parsed response of a createsession request, whatever that
    response holds; such a response is always stored; a createsession
    request is made exactly when the slot was empty or the liveness probe
    came back false; and when creation fails the slot keeps what it held.
    So a probe that came back false does not empty the slot: the slot then
    holds the parsed creation response, or still the old session when no
    creation response was parsed.  And the slot is empty after the request
    only when it was empty before and is unchanged, or when the creation
    response stored in it is itself empty, as [null] is. *)
Theorem session_slot_only_set_by_creation (W : world) (methodname : string)
    (parameters : option (list pyval)) (s s' : state) (r : result json) :
  SmiteClient._make_request W methodname parameters s = (r, s') ->
  let evs := new_events s s' in
  let created url answer := In (EvUrlopen In_create_session url answer) evs in
  let expired :=
    exists url answer, In (EvUrlopen In_test_session url answer) evs
                       /\ probe_result answer = Return false in
  (self s' = self s
   \/ exists url j, created url (ok j) /\ self s' = with_session j (self s))
  /\ (forall url j, created url (ok j) -> self s' = with_session j (self s))
  /\ (forall url answer, created url answer ->
        (forall j, answer <> ok j) -> self s' = self s)
  /\ ((exists url answer, created url answer)
      <-> truthy (_session (self s)) = false \/ expired)
  /\ (expired ->
      (exists url j, created url (ok j) /\ _session (self s') = j)
      \/ ((exists url answer, created url answer /\ forall j, answer <> ok j)
          /\ _session (self s') = _session (self s)))
  /\ (truthy (_session (self s')) = false ->
      (truthy (_session (self s)) = false /\ self s' = self s)
      \/ exists url j, created url (ok j) /\ truthy j = false
                       /\ _session (self s') = j).
Proof.
  intros H. cbv zeta.
  destruct (make_request_slot _ _ _ _ _ _ H) as (Hset & Hstored & Hkept & Hwhen).
  cbv zeta in Hset, Hstored, Hkept, Hwhen.
  repeat (split; [assumption|]). split.
  - intros Hexpired.
    destruct (proj2 Hwhen (or_intror Hexpired)) as (url & answer & Hin).
    destruct answer as [[j|]|code|].
    + left. exists url, j. split; [exact Hin|].
      now rewrite (Hstored _ _ Hin).
    + right. split; [exists url, (Resp_body Body_garbage); split;
                     [exact Hin|discriminate]|].
      rewrite (Hkept _ _ Hin); [reflexivity|discriminate].
    + right. split; [exists url, (Resp_HTTPError code); split;
                     [exact Hin|discriminate]|].
      rewrite (Hkept _ _ Hin); [reflexivity|discriminate].
    + right. split; [exists url, Resp_URLError; split;
                     [exact Hin|discriminate]|].
      rewrite (Hkept _ _ Hin); [reflexivity|discriminate].
  - intros Hempty. destruct Hset as [Heq|(url & j & Hin & Heq)].
    + left. split; [now rewrite <- Heq|exact Heq].
    + right. exists url, j. rewrite Heq in Hempty |- *.
      split; [exact Hin|]. split; [exact Hempty|reflexivity].
Qed.

Lemma session_slot_only_set_by_creation_witness :
  let W := world_of (ok a_session) (ok probe_no) (ok TestGod) in
  let run := SmiteClient._make_request W "getgods" (Some [PInt 1]) client_123 in
  run = (fst run, snd run)
  /\ self (snd run) = with_session a_session (self client_123).
Proof.
  cbv zeta. split; [apply surjective_pairing|].
  destruct (session_slot_only_set_by_creation
              (world_of (ok a_session) (ok probe_no) (ok TestGod))
              "getgods" (Some [PInt 1]) client_123 _ _
              (surjective_pairing _)) as (_ & Hstored & _).
  apply (Hstored
           "http://api.smitegame.com/smiteapi.svc//createsessionJson/123/904a98afa7822372a4679b6f8d3da009/20240102030406").
  vm_compute. right. left. reflexivity.
Defined.

(** The slot can be empty again after a request, through the creation
    response alone: the probe comes back false, the createsession request is
    answered [null], and [null] is what the slot then holds. *)
Example null_creation_is_stored :
  let W := world_of (ok JNull) (ok probe_no) (ok TestGod) in
  let run := SmiteClient._make_request W "getgods" (Some [PInt 1])
               client_123_in_session in
  fst run = Raise AttributeError
  /\ sites (new_events client_123_in_session (snd run))
     = [In_test_session; In_create_session]
  /\ _session (self (snd run)) = JNull.
Proof. cbv zeta. repeat split; vm_compute; reflexivity. Qed.

(** C4 as stated fails, both ways. A creation response without a session
    identifier field is stored all the same, so the slot goes from empty to
    held; and after a probe without the marker the slot is not emptied: when
    the renewal fails it still holds the old session. *)
Lemma session_transitions_counterexample :
  let W1 := world_of (ok refusal) (ok probe_no) (ok TestGod) in
  let s1 := snd (SmiteClient._make_request W1 "getgods" (Some [PInt 1])
                   client_123) in
  let W2 := world_of (Resp_HTTPError 404) (ok probe_no) (ok TestGod) in
  let s2 := snd (SmiteClient._make_request W2 "getgods" (Some [PInt 1])
                   client_123_in_session) in
  (_session (self client_123) = JNull /\ _session (self s1) = refusal
   /\ has_session_id refusal = false
   /\ ~ spec_session_transitions client_123 s1)
  /\ (_session (self client_123_in_session) = a_session
      /\ sites (new_events client_123_in_session s2)
         = [In_test_session; In_create_session]
      /\ _session (self s2) = a_session
      /\ ~ spec_session_transitions client_123_in_session s2).
Proof.
  cbv zeta. unfold spec_session_transitions. cbv zeta.
  split; (split; [reflexivity|]).
  - split; [vm_compute; reflexivity|]. split; [reflexivity|].
    intros [Hcreated _].
    destruct Hcreated as (url & j & Hin & Hid); try reflexivity.
    vm_compute in Hin.
    destruct Hin as [Hin|[Hin|[]]]; [discriminate|].
    injection Hin as _ <-. discriminate Hid.
  - split; [vm_compute; reflexivity|]. split; [vm_compute; reflexivity|].
    intros [_ Hexpired].
    assert (Hfalse : truthy a_session = false); [|discriminate Hfalse].
    change a_session with (_session (self client_123_in_session)) at 1.
    replace (_session (self client_123_in_session))
      with (_session (self (snd (SmiteClient._make_request
              (world_of (Resp_HTTPError 404) (ok probe_no) (ok TestGod))
              "getgods" (Some [PInt 1]) client_123_in_session))))
      by (vm_compute; reflexivity).
    apply Hexpired; [reflexivity|].
    exists "http://api.smitegame.com/smiteapi.svc/testsessionJson/123/691ded3e1390484b95cab82ba7cd5d98/0123456789ABCDEF0123456789ABCDEF/20240102030405".
    exists (ok probe_no). split; [|reflexivity].
    vm_compute. right. left. reflexivity.
Qed.

(* ================================================================== *)
(** ** The getgods scenario *)

Ltac reduce_state :=
  cbn [self advance store with_session client_123 start SmiteClient.__init__
       _BASE_URL dev_id auth_key _session fetched ticks trace urlopen utcnow
       scenario_world Nat.add a_session dict_get String.eqb Ascii.eqb Bool.eqb
       truthy params_strs map app].

(** The first request of the client: a session is created and stored, then
    the request is sent. *)
Lemma scenario_first (clock : nat -> datetime) :
  exists url1 url2,
    SmiteClient._make_request (scenario_world clock) "getgods"
      (Some [PInt 1]) client_123 =
      (Return TestGod,
       advance (store a_session client_123) 4 2
         [EvLog Log_creating_session;
          EvUrlopen In_create_session url1 (ok a_session);
          EvLog (Log_built_url "getgods" url2);
          EvUrlopen In_make_request url2 (ok TestGod)]).
Proof.
  eexists. eexists.
  rewrite make_request_phases, ensure_session_eq. cbv beta zeta.
  reduce_state. cbv iota.
  rewrite create_session_eq. cbv zeta. reduce_state.
  rewrite stub_on_create. unfold ok at 1. cbv iota.
  rewrite dispatch_eq, build_request_url_eq. cbv zeta. reduce_state.
  cbv iota. reduce_state.
  rewrite stub_on_getgods. unfold ok at 1. cbv iota.
  change (truthy TestGod) with true. cbv iota.
  reflexivity.
Qed.

(** Any later request, as long as the object holds that session: the
    session is probed, then the request is sent. *)
Lemma scenario_later (clock : nat -> datetime) (s : state) :
  self s = self (store a_session client_123) ->
  exists url1 url2,
    SmiteClient._make_request (scenario_world clock) "getgods"
      (Some [PInt 1]) s =
      (Return TestGod,
       advance s 4 2
         [EvLog (Log_testing_session url1);
          EvUrlopen In_test_session url1 (ok probe_yes);
          EvLog (Log_built_url "getgods" url2);
          EvUrlopen In_make_request url2 (ok TestGod)]).
Proof.
  intros Hself. eexists. eexists.
  rewrite make_request_phases, ensure_session_eq. cbv beta zeta.
  rewrite Hself. reduce_state. cbv iota.
  rewrite test_session_eq. cbv zeta. rewrite Hself. reduce_state. cbv iota.
  rewrite stub_on_probe. unfold ok at 1. cbv iota.
  change (py_in "successful" probe_yes) with (Return true). cbv iota.
  rewrite dispatch_eq, build_request_url_eq. cbv zeta. reduce_state.
  rewrite Hself. reduce_state. cbv iota. reduce_state.
  rewrite stub_on_getgods. unfold ok at 1. cbv iota.
  change (truthy TestGod) with true. cbv iota.
  unfold advance. reduce_state. rewrite <- !app_assoc. cbn [app].
  reflexivity.
Qed.

(** No request that returns got by with a single round trip, whatever the
    transport: a held session is probed, an empty slot is filled, and a
    session that failed its probe costs a third round trip. *)
Lemma request_round_trips (W : world) (methodname : string)
    (parameters : option (list pyval)) (s s' : state) (v : json) :
  SmiteClient._make_request W methodname parameters s = (Return v, s') ->
  let fetches := sites (new_events s s') in
  (truthy (_session (self s)) = false ->
   fetches = [In_create_session; In_make_request])
  /\ (truthy (_session (self s)) = true ->
      fetches = [In_test_session; In_make_request]
      \/ fetches = [In_test_session; In_create_session; In_make_request]).
Proof.
  intros H. apply make_request_run in H as [_ H]. cbv zeta.
  revert H. generalize (new_events s s') as evs.
  generalize (self s') as c'. generalize (self s) as c.
  intros c c' evs H.
  assert (Htail : forall a, request_result a = Return v ->
                            request_tail a = []).
  { intros [[j|]|code|]; cbn; try discriminate.
    - destruct (truthy j); [reflexivity|discriminate].
    - destruct (code =? 404); [|destruct (code =? 400)]; discriminate. }
  inversion H as [e c1 evsE He|e c1 evsE He|c1 evsE u ans He Hres];
    subst; clear H.
  rewrite (Htail _ Hres).
  invert_shape He; (split; intros Hs; try congruence); cbn; auto.
Qed.

(** C2, as the code has it. Under any clock, the client 123/abc that
    requests getgods with parameters [[1]] from a transport answering
    createsession with a session object, testsession with the success message
    and the request with the god gets that object back unchanged, on the
    first call after exactly two round trips (session creation, then the
    request) and on the next call after exactly two round trips again (the
    liveness probe, then the request). *)
Theorem scenario_two_round_trips_each (clock : nat -> datetime) :
  let W := scenario_world clock in
  let first :=
    SmiteClient._make_request W "getgods" (Some [PInt 1]) client_123 in
  let second :=
    SmiteClient._make_request W "getgods" (Some [PInt 1]) (snd first) in
  spec_scenario W 2 2
  /\ sites (new_events client_123 (snd first))
     = [In_create_session; In_make_request]
  /\ sites (new_events (snd first) (snd second))
     = [In_test_session; In_make_request].
Proof.
  cbv zeta. unfold spec_scenario. cbv zeta.
  destruct (scenario_first clock) as (u1 & u2 & ->). cbn [fst snd].
  destruct (scenario_later clock
              (advance (store a_session client_123) 4 2
                 [EvLog Log_creating_session;
                  EvUrlopen In_create_session u1 (ok a_session);
                  EvLog (Log_built_url "getgods" u2);
                  EvUrlopen In_make_request u2 (ok TestGod)]) eq_refl)
    as (v1 & v2 & ->). cbn [fst snd].
  erewrite !new_events_app by reflexivity.
  repeat split.
Qed.

(** C2 as stated fails. With the transport that merely returns the god for
    every URL the first call stores the god as its session and raises
    [TypeError] for want of a session identifier, after one round trip; with
    the transport of the scenario the second call makes two round trips, not
    one, because every call probes the held session first. *)
Lemma scenario_counterexample :
  let W0 := uniform_world a_clock TestGod in
  let first0 :=
    SmiteClient._make_request W0 "getgods" (Some [PInt 1]) client_123 in
  let W1 := scenario_world a_clock in
  let first1 :=
    SmiteClient._make_request W1 "getgods" (Some [PInt 1]) client_123 in
  let second1 :=
    SmiteClient._make_request W1 "getgods" (Some [PInt 1]) (snd first1) in
  (fst first0 = Raise TypeError
   /\ round_trips (new_events client_123 (snd first0)) = 1%nat
   /\ ~ spec_scenario W0 2 1)
  /\ (round_trips (new_events (snd first1) (snd second1)) = 2%nat
      /\ ~ spec_scenario W1 2 1).
Proof.
  cbv zeta. unfold spec_scenario. cbv zeta.
  repeat split; try (vm_compute; reflexivity).
  - vm_compute. intros [H _]. discriminate H.
  - vm_compute. intros (_ & _ & _ & H). discriminate H.
Qed.

(* ================================================================== *)
(** ** Runs that show the hypotheses at work *)

Lemma session_404_raises_witness :
  let W := world_of (Resp_HTTPError 404) (ok probe_yes) (ok TestGod) in
  let run := SmiteClient._make_request W "getgods" (Some [PInt 1]) client_123 in
  let url :=
    "http://api.smitegame.com/smiteapi.svc//createsessionJson/123/904a98afa7822372a4679b6f8d3da009/20240102030406" in
  In (EvUrlopen In_create_session url (Resp_HTTPError 404))
     (new_events client_123 (snd run))
  /\ fst run = Raise (NoResultError msg_create_404)
  /\ round_trips (new_events client_123 (snd run)) = 1%nat.
Proof.
  cbv zeta.
  assert (Hin : In (EvUrlopen In_create_session
                      "http://api.smitegame.com/smiteapi.svc//createsessionJson/123/904a98afa7822372a4679b6f8d3da009/20240102030406"
                      (Resp_HTTPError 404))
                   (new_events client_123
                      (snd (SmiteClient._make_request
                              (world_of (Resp_HTTPError 404) (ok probe_yes)
                                 (ok TestGod))
                              "getgods" (Some [PInt 1]) client_123))))
    by (vm_compute; right; left; reflexivity).
  split; [exact Hin|].
  destruct (session_404_raises _ _ _ _ _ _ _ _ (surjective_pairing _) Hin
              (or_introl eq_refl)) as [Hr [before Hevs]].
  split; [exact Hr|]. vm_compute. reflexivity.
Defined.

Lemma other_http_error_not_reraised_witness :
  let W := world_of (ok a_session) (ok probe_yes) (Resp_HTTPError 500) in
  let run := SmiteClient._make_request W "getgods" (Some [PInt 1]) client_123 in
  let url :=
    "http://api.smitegame.com/smiteapi.svc/getgodsJson/123/4c38971da9ac193cdaf169ffc4723902/0123456789ABCDEF0123456789ABCDEF/20240102030408/1" in
  In (EvUrlopen In_make_request url (Resp_HTTPError 500))
     (new_events client_123 (snd run))
  /\ 500 <> 404 /\ 500 <> 400
  /\ fst run = Raise (UnboundLocalError "html")
  /\ fst run <> Raise (HTTPError 500).
Proof.
  cbv zeta.
  assert (Hin : In (EvUrlopen In_make_request
                      "http://api.smitegame.com/smiteapi.svc/getgodsJson/123/4c38971da9ac193cdaf169ffc4723902/0123456789ABCDEF0123456789ABCDEF/20240102030408/1"
                      (Resp_HTTPError 500))
                   (new_events client_123
                      (snd (SmiteClient._make_request
                              (world_of (ok a_session) (ok probe_yes)
                                 (Resp_HTTPError 500))
                              "getgods" (Some [PInt 1]) client_123))))
    by (vm_compute; do 3 right; left; reflexivity).
  split; [exact Hin|]. split; [lia|]. split; [lia|].
  destruct (other_http_error_not_reraised _ _ _ _ _ _ _ _
              (surjective_pairing _) Hin) as (Hr & Hne & _); [lia|lia|].
  split; assumption.
Defined.

Lemma empty_payload_raises_witness :
  let W := world_of (ok a_session) (ok probe_yes) (ok (JArr [])) in
  let run := SmiteClient._make_request W "gettopmatches" None client_123 in
  let url :=
    "http://api.smitegame.com/smiteapi.svc/gettopmatchesJson/123/ae809d47f0683c0c9333a98fa5aa356d/0123456789ABCDEF0123456789ABCDEF/20240102030408" in
  In (EvUrlopen In_make_request url (ok (JArr [])))
     (new_events client_123 (snd run))
  /\ fst run = Raise (NoResultError msg_no_data).
Proof.
  cbv zeta.
  assert (Hin : In (EvUrlopen In_make_request
                      "http://api.smitegame.com/smiteapi.svc/gettopmatchesJson/123/ae809d47f0683c0c9333a98fa5aa356d/0123456789ABCDEF0123456789ABCDEF/20240102030408"
                      (ok (JArr [])))
                   (new_events client_123
                      (snd (SmiteClient._make_request
                              (world_of (ok a_session) (ok probe_yes)
                                 (ok (JArr [])))
                              "gettopmatches" None client_123))))
    by (vm_compute; do 3 right; left; reflexivity).
  split; [exact Hin|].
  apply (empty_payload_raises _ _ _ _ _ _ _ _ (surjective_pairing _) Hin).
  right. left. reflexivity.
Defined.

Lemma probes_alive_sound (evs : list event) :
  probes_alive evs = true ->
  forall url answer,
    In (EvUrlopen In_test_session url answer) evs ->
    probe_result answer = Return true.
Proof.
  unfold probes_alive. rewrite forallb_forall. intros H url answer Hin.
  specialize (H _ Hin). cbn in H.
  destruct (probe_result answer) as [[|]|]; [reflexivity|discriminate..].
Qed.

Lemma valid_session_never_recreated_witness :
  let W := scenario_world a_clock in
  let calls := [Get_gods; Ping; Get_top_matches; Get_player (PStr "a b")] in
  let run := run_calls W calls client_123_in_session in
  truthy (_session (self client_123_in_session)) = true
  /\ self (snd run) = self client_123_in_session
  /\ sites (new_events client_123_in_session (snd run))
     = [In_test_session; In_make_request; In_ping;
        In_test_session; In_make_request; In_test_session; In_make_request].
Proof.
  cbv zeta. split; [reflexivity|].
  split; [|vm_compute; reflexivity].
  apply (valid_session_never_recreated (scenario_world a_clock)
           [Get_gods; Ping; Get_top_matches; Get_player (PStr "a b")]
           client_123_in_session _ _ eq_refl (surjective_pairing _)).
  apply probes_alive_sound. vm_compute. reflexivity.
Defined.

(* ================================================================== *)
(** * Further properties of the client *)

(** ** What the answer to the request makes of the call *)

(** X1. When the transport answers the request of [_make_request] with HTTP
    404 or 400, the call fails with the [NoResultError] of that code, and the
    run ends with that request followed only by the error's log record. *)
Theorem request_4xx_raises (W : world) (methodname : string)
    (parameters : option (list pyval)) (s s' : state) (r : result json)
    (url : string) (code : Z) :
  SmiteClient._make_request W methodname parameters s = (r, s') ->
  In (EvUrlopen In_make_request url (Resp_HTTPError code)) (new_events s s') ->
  code = 404 \/ code = 400 ->
  let msg := if code =? 404 then msg_request_404 else msg_request_400 in
  r = Raise (NoResultError msg)
  /\ exists before,
       new_events s s' =
         (before ++ [EvUrlopen In_make_request url (Resp_HTTPError code);
                     EvLog (Log_smite_error msg)])%list.
Proof.
  intros H Hin Hcode.
  destruct (request_answer_decides _ _ _ _ _ _ _ _ H Hin) as [-> Hevs].
  cbv zeta. destruct Hcode as [-> | ->]; cbn in Hevs |- *; split;
    (reflexivity || exact Hevs).
Qed.

(** X2. When the request of [_make_request] is answered with a body that
    parses, the parsed value alone decides the result: a truthy value is
    returned as it is, a falsy one ([0], [false] and the empty string like
    [{}], [[]] and [null]) gives the [NoResultError] for no data. *)
Theorem payload_decides_result (W : world) (methodname : string)
    (parameters : option (list pyval)) (s s' : state) (r : result json)
    (url : string) (payload : json) :
  SmiteClient._make_request W methodname parameters s = (r, s') ->
  In (EvUrlopen In_make_request url (ok payload)) (new_events s s') ->
  r = (if truthy payload then Return payload
       else Raise (NoResultError msg_no_data)).
Proof.
  intros H Hin.
  destruct (request_answer_decides _ _ _ _ _ _ _ _ H Hin) as [-> _].
  reflexivity.
Qed.

(** X3. Whatever [_make_request] returns is truthy and is the parsed answer
    to its request, which is the last thing the run did. *)
Theorem returned_value_is_payload (W : world) (methodname : string)
    (parameters : option (list pyval)) (s s' : state) (v : json) :
  SmiteClient._make_request W methodname parameters s = (Return v, s') ->
  truthy v = true
  /\ exists before url,
       new_events s s'
       = (before ++ [EvUrlopen In_make_request url (ok v)])%list.
Proof.
  intros H. apply make_request_run in H as [_ H].
  revert H. generalize (new_events s s') as evs.
  generalize (self s') as c'. generalize (self s) as c.
  intros c c' evs H.
  inversion H as [e c1 evsE He|e c1 evsE He|c1 evsE u ans He Hres];
    subst; clear H.
  destruct ans as [[j|]|code|]; cbn in Hres; try discriminate.
  - destruct (truthy j) eqn:T; [|discriminate]. injection Hres as ->.
    split; [exact T|]. exists (evsE ++ [EvLog (Log_built_url methodname u)])%list, u.
    cbn. rewrite T. rewrite <- app_assoc. reflexivity.
  - destruct (code =? 404); [|destruct (code =? 400)]; discriminate.
Qed.

(** X4. When the request of [_create_session] or of [_test_session] is
    answered with an HTTP error other than 404, the traceback is printed and
    nothing is raised there: [html] is unbound, the call fails with
    [UnboundLocalError], the object is unchanged and nothing follows the
    printed traceback. *)
Theorem session_other_http_error (W : world) (methodname : string)
    (parameters : option (list pyval)) (s s' : state) (r : result json)
    (at_site : site) (url : string) (code : Z) :
  SmiteClient._make_request W methodname parameters s = (r, s') ->
  In (EvUrlopen at_site url (Resp_HTTPError code)) (new_events s s') ->
  at_site = In_create_session \/ at_site = In_test_session ->
  code <> 404 ->
  r = Raise (UnboundLocalError "html")
  /\ self s' = self s
  /\ exists before,
       new_events s s' =
         (before ++ [EvUrlopen at_site url (Resp_HTTPError code);
                     EvPrintExc code])%list.
Proof.
  intros H Hin Hsite Hcode. apply Z.eqb_neq in Hcode.
  apply make_request_run in H as [_ H].
  revert H Hin. generalize (new_events s s') as evs.
  generalize (self s') as c'. generalize (self s) as c.
  intros c c' evs H Hin.
  inversion H as [e c1 evsE He|e c1 evsE He|c1 evsE u ans He]; subst; clear H;
    invert_shape He; pick_fetch Hin;
    try (destruct Hsite; discriminate);
    repeat match goal with
      | P : probe_result (Resp_HTTPError _) = _ |- _ =>
          unfold probe_result in P
      | P : context [session_result _ (Resp_HTTPError code)] |- _ =>
          cbn [session_result json_loads_decode] in P; rewrite Hcode in P;
          inversion P; subst; clear P
      end;
    (split; [reflexivity|split; [reflexivity|]]);
    cbn [session_tail app probe_events create_events]; rewrite Hcode;
    cbn [app]; prefix_of_events.
Qed.

(** X5. At any of the three requests, a failure to connect ([URLError]) or
    a body that is not JSON ([ValueError]) escapes [_make_request] as it is:
    no handler catches it, and nothing is logged or requested after it. *)
Theorem transport_failure_escapes (W : world) (methodname : string)
    (parameters : option (list pyval)) (s s' : state) (r : result json)
    (at_site : site) (url : string) (answer : response) :
  SmiteClient._make_request W methodname parameters s = (r, s') ->
  In (EvUrlopen at_site url answer) (new_events s s') ->
  answer = Resp_URLError \/ answer = Resp_body Body_garbage ->
  r = Raise (match answer with Resp_URLError => URLError | _ => ValueError end)
  /\ exists before,
       new_events s s' = (before ++ [EvUrlopen at_site url answer])%list.
Proof.
  intros H Hin Hans.
  apply make_request_run in H as [_ H].
  revert H Hin. generalize (new_events s s') as evs.
  generalize (self s') as c'. generalize (self s) as c.
  intros c c' evs H Hin.
  inversion H as [e c1 evsE He|e c1 evsE He|c1 evsE u ans He]; subst; clear H;
    invert_shape He; pick_fetch Hin;
    destruct Hans as [Hans|Hans]; subst;
    repeat match goal with
      | P : probe_result Resp_URLError = _ |- _ =>
          cbn in P; inversion P; subst; clear P
      | P : probe_result (Resp_body Body_garbage) = _ |- _ =>
          cbn in P; inversion P; subst; clear P
      | P : session_result _ Resp_URLError = _ |- _ =>
          cbn in P; inversion P; subst; clear P
      | P : session_result _ (Resp_body Body_garbage) = _ |- _ =>
          cbn in P; inversion P; subst; clear P
      end;
    (split; [reflexivity|]);
    cbn [session_tail request_tail app probe_events create_events
         request_events];
    rewrite <- ?app_assoc; cbn [app]; prefix_of_events.
Qed.

Lemma session_result_smite (msg : string) (answer : response) (e : exn)
    (m : string) :
  session_result msg answer = Raise e -> smite_message (@Raise json e) = Some m ->
  m = msg /\ session_tail msg answer = [EvLog (Log_smite_error msg)].
Proof.
  destruct answer as [[j|]|code|]; cbn; try discriminate.
  - intros [= <-]; discriminate.
  - destruct (code =? 404); intros [= <-]; cbn; [|discriminate].
    intros [= <-]. split; reflexivity.
  - intros [= <-]; discriminate.
Qed.

(** X6. Every [SmiteError] or [NoResultError] that [_make_request] raises
    has been written to the log by its constructor: the log record with that
    message is the last event of the run. *)
Theorem smite_errors_are_logged (W : world) (methodname : string)
    (parameters : option (list pyval)) (s s' : state) (r : result json)
    (msg : string) :
  SmiteClient._make_request W methodname parameters s = (r, s') ->
  smite_message r = Some msg ->
  exists before,
    new_events s s' = (before ++ [EvLog (Log_smite_error msg)])%list.
Proof.
  intros H Hmsg. apply make_request_run in H as [_ H].
  revert H. generalize (new_events s s') as evs.
  generalize (self s') as c'. generalize (self s) as c.
  intros c c' evs H.
  inversion H as [e c1 evsE He|e c1 evsE He|c1 evsE u ans He]; subst; clear H.
  - inversion He; subst; clear He.
    + match goal with D : _ \/ _ |- _ => destruct D as [-> | ->] end;
        discriminate.
    + match goal with P : probe_result _ = _ |- _ =>
        unfold probe_result in P; rename P into Hp end.
      destruct (session_result msg_test_404 answer) as [reply|e0] eqn:E.
      * destruct reply; cbn in Hp; try discriminate;
          injection Hp as <-; discriminate.
      * injection Hp as <-.
        destruct (session_result_smite _ _ _ _ E Hmsg) as [-> ->].
        exists (probe_events url answer). reflexivity.
    + match goal with P : session_result _ _ = _ |- _ =>
        destruct (session_result_smite _ _ _ _ P Hmsg) as [-> ->] end.
      exists (before ++ [EvLog Log_creating_session;
                         EvUrlopen In_create_session url answer])%list.
      cbn. rewrite <- app_assoc. reflexivity.
  - match goal with D : _ \/ _ |- _ => destruct D as [-> | ->] end;
      discriminate.
  - destruct ans as [[j|]|code|]; cbn in Hmsg |- *; try discriminate.
    + destruct (truthy j); [discriminate|]. injection Hmsg as <-.
      exists (evsE ++ [EvLog (Log_built_url methodname u);
                       EvUrlopen In_make_request u (Resp_body (Body_json j))])%list.
      rewrite <- app_assoc. reflexivity.
    + destruct (code =? 404); [|destruct (code =? 400)]; cbn in Hmsg;
        try discriminate; injection Hmsg as <-;
        exists (evsE ++ [EvLog (Log_built_url methodname u);
                         EvUrlopen In_make_request u (Resp_HTTPError code)])%list;
        rewrite <- app_assoc; reflexivity.
Qed.

Lemma sites_app (a b : list event) : sites (a ++ b) = (sites a ++ sites b)%list.
Proof.
  induction a as [|e a IH]; [reflexivity|].
  destruct e; cbn; rewrite IH; reflexivity.
Qed.

Lemma sites_session_tail (msg : string) (answer : response) :
  sites (session_tail msg answer) = [].
Proof.
  destruct answer as [?|code|]; cbn; try reflexivity.
  destruct (code =? 404); reflexivity.
Qed.

Lemma sites_request_tail (answer : response) : sites (request_tail answer) = [].
Proof.
  destruct answer as [[j|]|code|]; cbn; try reflexivity.
  - destruct (truthy j); reflexivity.
  - destruct (code =? 404); [|destruct (code =? 400)]; reflexivity.
Qed.

(** X7. The requests of one [_make_request], in order: without a session,
    a creation and then at most the request; with a session, a probe first,
    then at most a creation, then at most the request.  So a call costs
    three round trips at most, and none precedes the probe or follows the
    request. *)
Theorem request_sites_in_order (W : world) (methodname : string)
    (parameters : option (list pyval)) (s s' : state) (r : result json) :
  SmiteClient._make_request W methodname parameters s = (r, s') ->
  let fetches := sites (new_events s s') in
  (truthy (_session (self s)) = false ->
   fetches = [In_create_session]
   \/ fetches = [In_create_session; In_make_request])
  /\ (truthy (_session (self s)) = true ->
      In fetches [[]; [In_test_session]; [In_test_session; In_make_request];
                  [In_test_session; In_create_session];
                  [In_test_session; In_create_session; In_make_request]]).
Proof.
  intros H. apply make_request_run in H as [_ H]. cbv zeta.
  revert H. generalize (new_events s s') as evs.
  generalize (self s') as c'. generalize (self s) as c.
  intros c c' evs H.
  inversion H as [e c1 evsE He|e c1 evsE He|c1 evsE u ans He]; subst; clear H;
    invert_shape He;
    rewrite ?sites_app, ?sites_session_tail, ?sites_request_tail;
    cbn [sites probe_events create_events request_events app];
    rewrite ?sites_session_tail, ?sites_request_tail;
    (split; intros Hs; try congruence); cbn; tauto.
Qed.

(** A held session without a string identifier: the probe raises before
    anything is requested, so the request is over at once. *)
Lemma unusable_session_request (W : world) (methodname : string)
    (parameters : option (list pyval)) (s : state) :
  truthy (_session (self s)) = true ->
  session_id_of (_session (self s)) = None ->
  exists e, (e = AttributeError \/ e = TypeError)
            /\ SmiteClient._make_request W methodname parameters s
               = (Raise e, advance s 2 0 []).
Proof.
  intros Held Hid.
  rewrite make_request_phases, ensure_session_eq. cbv beta zeta.
  rewrite Held, test_session_eq. cbv zeta.
  unfold session_id_of in Hid.
  destruct (_session (self s)) as [| | | | |?|members];
    try (exists AttributeError; split; [now left|reflexivity]).
  destruct (dict_get "session_id" members); try discriminate;
    exists TypeError; (split; [now right|reflexivity]).
Qed.

(** X8. Once the slot holds a truthy value that offers no string
    [session_id], the client is stuck: every later public call but [ping]
    fails with [AttributeError] or [TypeError] before any request is sent,
    and the slot is never repaired. *)
Theorem unusable_session_blocks_requests (W : world)
    (calls : list public_call) :
  forall (s s' : state) (results : list (result json)),
    truthy (_session (self s)) = true ->
    session_id_of (_session (self s)) = None ->
    run_calls W calls s = (results, s') ->
    self s' = self s
    /\ Forall (fun at_site => at_site = In_ping) (sites (new_events s s'))
    /\ Forall2 (fun call r =>
                  call = Ping \/ r = Raise AttributeError \/ r = Raise TypeError)
         calls results.
Proof.
  induction calls as [|call rest IH]; intros s s' results Held Hid H;
    cbn in H.
  - inversion H; subst. unfold new_events. rewrite skipn_all.
    repeat split; constructor.
  - destruct (invoke W call s) as [r s1] eqn:E1.
    destruct (run_calls W rest s1) as [rs s2] eqn:E2.
    inversion H; subst; clear H.
    rewrite (new_events_step _ _ _ _ _ _ _ _ E1 E2), sites_app.
    assert (Hfirst : self s1 = self s
              /\ Forall (fun at_site => at_site = In_ping)
                   (sites (new_events s s1))
              /\ (call = Ping \/ r = Raise AttributeError \/ r = Raise TypeError)).
    { destruct (invoke_cases W call s) as [->|(m & p & Hm)].
      - cbn [invoke] in E1. rewrite ping_eq in E1. cbv zeta in E1.
        injection E1 as _ <-. split; [reflexivity|].
        erewrite new_events_app by reflexivity. cbn.
        split; [repeat constructor|now left].
      - rewrite Hm in E1.
        destruct (unusable_session_request W m p s Held Hid) as (e & He & Hrun).
        rewrite Hrun in E1. injection E1 as <- <-.
        split; [reflexivity|].
        erewrite new_events_app by reflexivity. cbn.
        split; [constructor|right; destruct He as [-> | ->]; auto]. }
    destruct Hfirst as (Hself & Hsites & Hres).
    destruct (IH s1 s' rs) as (Hself' & Hsites' & Hres');
      [now rewrite Hself|now rewrite Hself|exact E2|].
    split; [congruence|]. split; [now apply Forall_app|now constructor].
Qed.

(** X9. A request depends on its parameters through their [str] only: an
    integer and its decimal string, or no parameters and an empty list, give
    the same run. *)
Theorem parameters_matter_by_str (W : world) (methodname : string)
    (parameters parameters' : option (list pyval)) (s : state) :
  params_strs parameters = params_strs parameters' ->
  SmiteClient._make_request W methodname parameters s
  = SmiteClient._make_request W methodname parameters' s.
Proof.
  intros Hstr. rewrite !make_request_phases.
  destruct (ensure_session W s) as [[u|e] s1]; [|reflexivity].
  rewrite !dispatch_eq, !build_request_url_eq. cbv zeta. now rewrite Hstr.
Qed.

Section Urls.

Variable W : world.
Variables (c1 : client) (methodname : string)
          (parameters : option (list pyval)).

Lemma create_session_urls (s : state) (r : result json) (s1 : state) :
  SmiteClient._create_session W s = (r, s1) ->
  exists evs, trace s1 = (trace s ++ evs)%list
              /\ Forall (url_as_built W (self s) c1 methodname parameters) evs.
Proof.
  rewrite create_session_eq. cbv zeta. intros H.
  assert (Hurl : forall a tail,
            Forall (url_as_built W (self s) c1 methodname parameters) tail ->
            Forall (url_as_built W (self s) c1 methodname parameters)
              (EvUrlopen In_create_session
                 (_BASE_URL (self s) ++ "/createsessionJson/"
                  ++ dev_id (self s) ++ "/"
                  ++ spec_signature (dev_id (self s)) "createsession"
                       (auth_key (self s)) (strftime (utcnow W (ticks s)))
                  ++ "/" ++ strftime (utcnow W (S (ticks s)))) a :: tail)).
  { intros a tail Ht. constructor; [|exact Ht]. exists (ticks s). reflexivity. }
  destruct (urlopen W (fetched s) _) as [[j|]|code|];
    [| |destruct (code =? 404)|]; injection H as _ <-;
    (eexists; split; [reflexivity|]); apply Hurl; repeat constructor.
Qed.

Lemma test_session_urls (s : state) (r : result bool) (s1 : state) :
  SmiteClient._test_session W (_session (self s)) s = (r, s1) ->
  exists evs, trace s1 = (trace s ++ evs)%list
              /\ Forall (url_as_built W (self s) c1 methodname parameters) evs.
Proof.
  rewrite test_session_eq. cbv zeta. intros H.
  destruct (_session (self s)) as [| | | | |?|members] eqn:Es;
    try (injection H as _ <-; exists []; split; [reflexivity|constructor]).
  destruct (dict_get "session_id" members) as [| | | |sid| |] eqn:Ed;
    try (injection H as _ <-; exists []; split; [reflexivity|constructor]).
  assert (Hurl : forall a tail,
            Forall (url_as_built W (self s) c1 methodname parameters) tail ->
            Forall (url_as_built W (self s) c1 methodname parameters)
              (EvLog (Log_testing_session
                        (_BASE_URL (self s) ++ String.concat "/"
                           ["testsessionJson"; dev_id (self s);
                            spec_signature (dev_id (self s)) "testsession"
                              (auth_key (self s))
                              (strftime (utcnow W (S (ticks s))));
                            sid; strftime (utcnow W (ticks s))]))
               :: EvUrlopen In_test_session
                    (_BASE_URL (self s) ++ String.concat "/"
                       ["testsessionJson"; dev_id (self s);
                        spec_signature (dev_id (self s)) "testsession"
                          (auth_key (self s))
                          (strftime (utcnow W (S (ticks s))));
                        sid; strftime (utcnow W (ticks s))]) a :: tail)).
  { intros a tail Ht. constructor; [exact I|]. constructor; [|exact Ht].
    exists (ticks s), sid. split; [|reflexivity].
    unfold session_id_of. now rewrite Es, Ed. }
  destruct (urlopen W (fetched s) _) as [[j|]|code|];
    [| |destruct (code =? 404)|]; injection H as _ <-;
    (eexists; split; [reflexivity|]); apply Hurl; repeat constructor.
Qed.

Lemma dispatch_urls (c0 : client) (s : state) (r : result json) (s1 : state) :
  dispatch W methodname parameters s = (r, s1) ->
  exists evs, trace s1 = (trace s ++ evs)%list
              /\ Forall (url_as_built W c0 (self s) methodname parameters) evs.
Proof.
  rewrite dispatch_eq, build_request_url_eq. cbv zeta. intros H.
  destruct (_session (self s)) as [| | | | |?|members] eqn:Es;
    try (injection H as _ <-; exists []; split; [reflexivity|constructor]).
  destruct (dict_get "session_id" members) as [| | | |sid| |] eqn:Ed;
    try (injection H as _ <-; exists []; split; [reflexivity|constructor]).
  revert H. cbn [fetched advance self trace ticks Nat.add].
  set (url := replace_spaces _).
  assert (Hurl : forall a tail,
            Forall (url_as_built W c0 (self s) methodname parameters) tail ->
            Forall (url_as_built W c0 (self s) methodname parameters)
              (EvLog (Log_built_url methodname url)
               :: EvUrlopen In_make_request url a :: tail)).
  { intros a tail Ht. constructor; [exact I|]. constructor; [|exact Ht].
    exists (ticks s), sid. split; [|reflexivity].
    unfold session_id_of. now rewrite Es, Ed. }
  intros H.
  destruct (urlopen W (fetched s) url) as [[j|]|code|];
    [destruct (truthy j)| |destruct (code =? 404); [|destruct (code =? 400)]|];
    injection H as _ <-; cbn [trace advance];
    (eexists; split; [rewrite app_nil_r; reflexivity|]);
    apply Hurl; repeat constructor.
Qed.

Lemma ensure_session_urls (s : state) (r : result unit) (s1 : state) :
  ensure_session W s = (r, s1) ->
  exists evs, trace s1 = (trace s ++ evs)%list
              /\ Forall (url_as_built W (self s) c1 methodname parameters) evs.
Proof.
  assert (Hcreate : forall s0 r0 s2 evs0,
            self s0 = self s -> trace s0 = (trace s ++ evs0)%list ->
            Forall (url_as_built W (self s) c1 methodname parameters) evs0 ->
            match SmiteClient._create_session W
                    (advance s0 0 0 [EvLog Log_creating_session]) with
            | (Return j, s3) => (Return tt, store j s3)
            | (Raise e, s3) => (Raise e, s3)
            end = (r0, s2) ->
            exists evs, trace s2 = (trace s ++ evs)%list
                        /\ Forall (url_as_built W (self s) c1 methodname
                                     parameters) evs).
  { intros s0 r0 s2 evs0 Hself Htr Hall H.
    destruct (SmiteClient._create_session W _) as [[j|e] s3] eqn:E;
      apply create_session_urls in E as (evs & Htr3 & Hall3);
      injection H as _ <-; cbn [trace store advance self] in *;
      rewrite Hself in Hall3;
      (exists (evs0 ++ EvLog Log_creating_session :: evs)%list;
       split; [rewrite Htr3, Htr, <- !app_assoc; reflexivity|]);
      apply Forall_app.
    all: split; [exact Hall|constructor; [exact I|exact Hall3]]. }
  rewrite ensure_session_eq. cbv beta zeta.
  destruct (truthy (_session (self s))).
  - destruct (SmiteClient._test_session W _ s) as [[[|]|e] s0] eqn:Et;
      pose proof (test_session_run _ _ _ _ _ Et) as [Hself _];
      apply test_session_urls in Et as (evs & Htr & Hall); intros H.
    + injection H as _ <-. now exists evs.
    + exact (Hcreate _ _ _ _ Hself Htr Hall H).
    + injection H as _ <-. now exists evs.
  - intros H. apply (Hcreate s r s1 []); auto using app_nil_r.
Qed.

End Urls.

Lemma make_request_urls (W : world) (methodname : string)
    (parameters : option (list pyval)) (s s' : state) (r : result json) :
  SmiteClient._make_request W methodname parameters s = (r, s') ->
  Forall (url_as_built W (self s) (self s') methodname parameters)
    (new_events s s').
Proof.
  rewrite make_request_phases.
  destruct (ensure_session W s) as [[[]|e] s1] eqn:E; intros H.
  - pose proof (dispatch_run _ _ _ _ _ _ H) as [Hself _].
    apply (ensure_session_urls W (self s') methodname parameters) in E
      as (evsE & HtrE & HallE).
    apply (dispatch_urls W methodname parameters (self s)) in H
      as (evsD & HtrD & HallD).
    rewrite <- Hself in HallD.
    rewrite (new_events_app s s' (evsE ++ evsD))
      by (rewrite HtrD, HtrE, <- app_assoc; reflexivity).
    apply Forall_app. split; assumption.
  - injection H as _ <-.
    apply (ensure_session_urls W (self s1) methodname parameters) in E
      as (evsE & HtrE & HallE).
    now rewrite (new_events_app s s1 evsE HtrE).
Qed.

(** X10. Every URL that a request asks for has the layout its method builds:
    the creation URL and the probe URL from the object as the request found
    it, the request URL from the object as the request leaves it, with the
    identifier of the session held then; the signature and the timestamp of a
    URL come from two consecutive readings of the clock. *)
Theorem requested_urls_as_built (W : world) (methodname : string)
    (parameters : option (list pyval)) (s s' : state) (r : result json)
    (at_site : site) (url : string) (answer : response) :
  SmiteClient._make_request W methodname parameters s = (r, s') ->
  In (EvUrlopen at_site url answer) (new_events s s') ->
  match at_site with
  | In_create_session =>
      exists k,
        url = create_url (self s) (signature_at W (self s) "createsession" k)
                (timestamp_at W (S k))
  | In_test_session =>
      exists k session_id,
        session_id_of (_session (self s)) = Some session_id
        /\ url = probe_url (self s) (signature_at W (self s) "testsession" (S k))
                   session_id (timestamp_at W k)
  | In_make_request =>
      exists k session_id,
        session_id_of (_session (self s')) = Some session_id
        /\ url = request_url (self s') methodname
                   (signature_at W (self s') methodname k) session_id
                   (timestamp_at W (S k)) parameters
  | In_ping => False
  end.
Proof.
  intros H Hin. apply make_request_urls in H. rewrite Forall_forall in H.
  specialize (H _ Hin). destruct at_site; exact H.
Qed.

Lemma spaces_app (a b : string) : spaces (a ++ b) = (spaces a + spaces b)%nat.
Proof.
  induction a as [|c a IH]; [reflexivity|].
  change (String c a ++ b) with (String c (a ++ b)). cbn [spaces].
  destruct (Ascii.eqb c " "); rewrite IH; reflexivity.
Qed.

Lemma replace_spaces_escapes (s : string) :
  spaces (replace_spaces s) = 0%nat
  /\ String.length (replace_spaces s)
     = (String.length s + 2 * spaces s)%nat
  /\ (spaces s = 0%nat -> replace_spaces s = s).
Proof.
  induction s as [|c s (IH0 & IHl & IHi)]; [repeat split|].
  change (replace_spaces (String c s))
    with (if Ascii.eqb c " " then "%20" ++ replace_spaces s
          else String c (replace_spaces s)).
  cbn [spaces String.length].
  destruct (Ascii.eqb c " ") eqn:E.
  - change ("%20" ++ replace_spaces s)
      with (String "%" (String "2" (String "0" (replace_spaces s)))).
    cbn [spaces String.length Ascii.eqb Bool.eqb]. cbn.
    repeat split; [exact IH0|lia|discriminate].
  - cbn [spaces String.length]. rewrite E.
    repeat split; [exact IH0|lia|intros H; now rewrite IHi].
Qed.

(** X11. No URL requested by [_make_request] contains a space: each space
    of the built URL has become [%20]. *)
Theorem request_url_has_no_space (W : world) (methodname : string)
    (parameters : option (list pyval)) (s s' : state) (r : result json)
    (url : string) (answer : response) :
  SmiteClient._make_request W methodname parameters s = (r, s') ->
  In (EvUrlopen In_make_request url answer) (new_events s s') ->
  spaces url = 0%nat.
Proof.
  intros H Hin. apply make_request_urls in H.
  rewrite Forall_forall in H. destruct (H _ Hin) as (k & sid & _ & ->).
  apply replace_spaces_escapes.
Qed.

(** A request changes nothing of the object but, possibly, the session. *)
Lemma make_request_frame (W : world) (methodname : string)
    (parameters : option (list pyval)) (s s' : state) (r : result json) :
  SmiteClient._make_request W methodname parameters s = (r, s') ->
  dev_id (self s') = dev_id (self s)
  /\ auth_key (self s') = auth_key (self s)
  /\ lang (self s') = lang (self s)
  /\ _BASE_URL (self s') = _BASE_URL (self s).
Proof.
  intros H. apply make_request_run in H as [_ H].
  revert H. generalize (new_events s s') as evs.
  generalize (self s') as c'. generalize (self s) as c.
  intros c c' evs H.
  inversion H as [e c1 evsE He|e c1 evsE He|c1 evsE u ans He]; subst; clear H;
    inversion He; subst; repeat split.
Qed.

Lemma perform_frame (W : world) (op : operation) (s : state) (e : Endpoint) :
  _BASE_URL (self s) = Endpoint_value e ->
  dev_id (self (perform W op s)) = dev_id (self s)
  /\ auth_key (self (perform W op s)) = auth_key (self s)
  /\ lang (self (perform W op s)) = lang (self s)
  /\ _BASE_URL (self (perform W op s))
     = Endpoint_value (endpoint_after [op] e).
Proof.
  intros Hbase. destruct op as [call|endpoint]; cbn [perform endpoint_after].
  - destruct (invoke_cases W call s) as [->|(m & p & Hm)].
    + cbn [invoke]. rewrite ping_eq. cbv zeta. cbn [snd self advance].
      repeat split. exact Hbase.
    + rewrite Hm.
      destruct (SmiteClient._make_request W m p s) as [r s'] eqn:E.
      apply make_request_frame in E as (? & ? & ? & ?). cbn [snd].
      repeat split; congruence.
  - destruct endpoint as [|z|str|e']; cbn; repeat split; exact Hbase.
Qed.

Lemma perform_all_frame (W : world) (ops : list operation) :
  forall (s : state) (e : Endpoint),
    _BASE_URL (self s) = Endpoint_value e ->
    dev_id (self (perform_all W ops s)) = dev_id (self s)
    /\ auth_key (self (perform_all W ops s)) = auth_key (self s)
    /\ lang (self (perform_all W ops s)) = lang (self s)
    /\ _BASE_URL (self (perform_all W ops s))
       = Endpoint_value (endpoint_after ops e).
Proof.
  induction ops as [|op rest IH]; intros s e Hbase; [repeat split; exact Hbase|].
  destruct (perform_frame W op s e Hbase) as (Hd & Ha & Hl & Hb).
  change (perform_all W (op :: rest) s)
    with (perform_all W rest (perform W op s)).
  destruct (IH _ _ Hb) as (Hd' & Ha' & Hl' & Hb').
  repeat split; try congruence.
  rewrite Hb'. f_equal.
  destruct op as [call|[|z|str|e']]; reflexivity.
Qed.

(** X12. From construction on, whatever is called and switched, the
    credentials are the [str] of those given to the constructor, the language
    is the one given, and the base URL is that of the last switch that named
    an endpoint, or of PC. *)
Theorem credentials_and_endpoint_after (W : world) (ops : list operation)
    (dev_id0 auth_key0 lang0 : pyval) :
  let c := self (perform_all W ops (start dev_id0 auth_key0 lang0)) in
  dev_id c = py_str dev_id0
  /\ auth_key c = py_str auth_key0
  /\ lang c = lang0
  /\ _BASE_URL c = Endpoint_value (endpoint_after ops PC).
Proof.
  cbv zeta.
  destruct (perform_all_frame W ops (start dev_id0 auth_key0 lang0) PC eq_refl)
    as (-> & -> & -> & ->).
  repeat split.
Qed.

(** X13. Switching the endpoint keeps the session: the next request probes
    the old session, with its identifier, at the new endpoint. *)
Theorem switch_keeps_session (W : world) (e : Endpoint) (methodname : string)
    (parameters : option (list pyval)) (s s' : state) (r : result json)
    (url : string) (answer : response) :
  let switched := snd (SmiteClient._switch_endpoint (PEndpoint e) s) in
  SmiteClient._make_request W methodname parameters switched = (r, s') ->
  In (EvUrlopen In_test_session url answer) (new_events switched s') ->
  _session (self switched) = _session (self s)
  /\ exists k session_id,
       session_id_of (_session (self s)) = Some session_id
       /\ url = Endpoint_value e
                ++ String.concat "/"
                     ["testsessionJson"; dev_id (self s);
                      signature_at W (self s) "testsession" (S k);
                      session_id; timestamp_at W k].
Proof.
  cbv zeta. intros H Hin. split; [reflexivity|].
  apply make_request_urls in H. rewrite Forall_forall in H.
  destruct (H _ Hin) as (k & sid & Hsid & ->).
  exists k, sid. split; [exact Hsid|reflexivity].
Qed.

(** X14. [_create_now_timestamp] reads the clock once and returns fourteen
    decimal digits for a reading with a four-digit year. *)
Theorem now_timestamp_14_digits (W : world) (s : state) :
  valid_datetime (utcnow W (ticks s)) = true ->
  exists timestamp,
    SmiteClient._create_now_timestamp W s = (Return timestamp, tick s)
    /\ String.length timestamp = 14%nat
    /\ forallb is_digit (list_ascii_of_string timestamp) = true.
Proof.
  intros Hvalid. exists (strftime (utcnow W (ticks s))).
  split; [reflexivity|]. now apply strftime_14_digits.
Qed.

Lemma session_result_ok (msg : string) (j : json) :
  session_result msg (ok j) = Return j.
Proof. reflexivity. Qed.

(** With a usable session in the slot, the request is sent, to the URL that
    carries that session's identifier. *)
Lemma dispatch_sends (W : world) (methodname : string)
    (parameters : option (list pyval)) (s : state) (session_id : string) :
  session_id_of (_session (self s)) = Some session_id ->
  exists url answer tail r s1,
    dispatch W methodname parameters s = (r, s1)
    /\ trace s1 = (trace s ++ request_events methodname url answer ++ tail)%list
    /\ url = request_url (self s) methodname
               (signature_at W (self s) methodname (ticks s)) session_id
               (timestamp_at W (S (ticks s))) parameters.
Proof.
  intros Hid. unfold session_id_of in Hid.
  rewrite dispatch_eq, build_request_url_eq. cbv zeta.
  destruct (_session (self s)) as [| | | | |?|members]; try discriminate.
  destruct (dict_get "session_id" members) as [| | | |sid| |];
    try discriminate.
  injection Hid as ->.
  cbn [fetched advance self trace ticks Nat.add].
  set (url := replace_spaces _).
  exists url, (urlopen W (fetched s) url).
  destruct (urlopen W (fetched s) url) as [[j|]|code|];
    [destruct (truthy j)| |destruct (code =? 404); [|destruct (code =? 400)]|];
    eexists; eexists; eexists;
    (split; [reflexivity|split; [|reflexivity]]);
    cbn [trace advance request_events app]; rewrite app_nil_r;
    rewrite <- ?app_assoc; cbn [app]; reflexivity.
Qed.

(** X15. A creation response that offers no string [session_id] is stored
    all the same, and the call ends in [AttributeError] or [TypeError]
    without sending its request. *)
Theorem refused_creation_is_stored (W : world) (methodname : string)
    (parameters : option (list pyval)) (s s' : state) (r : result json)
    (url : string) (j : json) :
  SmiteClient._make_request W methodname parameters s = (r, s') ->
  In (EvUrlopen In_create_session url (ok j)) (new_events s s') ->
  session_id_of j = None ->
  (r = Raise AttributeError \/ r = Raise TypeError)
  /\ self s' = with_session j (self s)
  /\ forall url' answer,
       ~ In (EvUrlopen In_make_request url' answer) (new_events s s').
Proof.
  intros H Hin Hid.
  pose proof (make_request_urls _ _ _ _ _ _ H) as Hurls.
  rewrite Forall_forall in Hurls.
  apply make_request_run in H as [_ H].
  revert H Hin Hurls. generalize (new_events s s') as evs.
  generalize (self s') as c'. generalize (self s) as c.
  intros c c' evs H Hin Hurls.
  assert (Hnone : c' = with_session j c ->
            forall url' answer, ~ In (EvUrlopen In_make_request url' answer) evs).
  { intros -> url' answer Hreq.
    destruct (Hurls _ Hreq) as (k & sid & Hsid & _).
    cbn in Hsid. congruence. }
  inversion H as [e c1 evsE He|e c1 evsE He|c1 evsE u ans He]; subst; clear H;
    invert_shape He; pick_fetch Hin;
    repeat match goal with
      | P : session_result _ (ok _) = _ |- _ =>
          rewrite session_result_ok in P; inversion P; subst; clear P
      end.
  all: try (split;
            [match goal with
             | D : _ = AttributeError \/ _ |- _ =>
                 destruct D as [-> | ->]; auto
             end
            |split; [reflexivity|now apply Hnone]]).
  all: exfalso; eapply (Hnone eq_refl);
    rewrite ?in_app_iff; cbn; eauto 10.
Qed.

(** X16. When a session is created during a request and offers a string
    [session_id], the request is sent and carries that new identifier. *)
Theorem new_session_is_used (W : world) (methodname : string)
    (parameters : option (list pyval)) (s s' : state) (r : result json)
    (url : string) (j : json) (session_id : string) :
  SmiteClient._make_request W methodname parameters s = (r, s') ->
  In (EvUrlopen In_create_session url (ok j)) (new_events s s') ->
  session_id_of j = Some session_id ->
  exists k answer,
    In (EvUrlopen In_make_request
          (request_url (self s) methodname
             (signature_at W (self s) methodname k) session_id
             (timestamp_at W (S k)) parameters) answer)
       (new_events s s').
Proof.
  rewrite make_request_phases.
  destruct (ensure_session W s) as [[[]|e] s1] eqn:E;
    apply ensure_session_run in E as (evsE & HtrE & Hshape); intros H Hin Hid.
  - assert (HinE : In (EvUrlopen In_create_session url (ok j)) evsE).
    { pose proof (dispatch_run _ _ _ _ _ _ H)
        as [_ [[HtrD _]|(u & a & HtrD & _)]].
      - rewrite (new_events_app s s' evsE) in Hin by congruence. exact Hin.
      - rewrite (new_events_app s s' (evsE ++ request_events methodname u a
                                        ++ request_tail a)) in Hin
          by (rewrite HtrD, HtrE, <- app_assoc; reflexivity).
        pick_fetch Hin. exact Hin. }
    assert (Hself : self s1 = with_session j (self s)).
    { clear H Hin. revert Hshape HinE. generalize (self s1) as c1.
      generalize (self s) as c. intros c c1 Hshape HinE.
      invert_shape Hshape; pick_fetch HinE;
        match goal with
        | P : session_result _ (ok _) = _ |- _ =>
            rewrite session_result_ok in P; inversion P; subst; reflexivity
        end. }
    assert (Hid1 : session_id_of (_session (self s1)) = Some session_id)
      by (rewrite Hself; exact Hid).
    destruct (dispatch_sends W methodname parameters s1 session_id Hid1)
      as (u & a & tail & r1 & s2 & Hrun & HtrD & Hu).
    rewrite Hrun in H. injection H as _ <-.
    exists (ticks s1), a.
    rewrite (new_events_app s s2
               (evsE ++ request_events methodname u a ++ tail))
      by (rewrite HtrD, HtrE, <- app_assoc; reflexivity).
    rewrite Hu, Hself. rewrite !in_app_iff. right. left. cbn. right. now left.
  - injection H as _ <-. rewrite (new_events_app s s1 evsE HtrE) in Hin.
    exfalso. clear HtrE. revert Hshape Hin. generalize (self s1) as c1.
    generalize (self s) as c. intros c c1 Hshape Hin.
    invert_shape Hshape; pick_fetch Hin;
      match goal with
      | P : session_result _ (ok _) = _ |- _ =>
          rewrite session_result_ok in P; discriminate P
      end.
Qed.

(** ** The cost of calls in round trips *)

Lemma round_trips_sites (evs : list event) :
  round_trips evs = List.length (sites evs).
Proof.
  unfold round_trips.
  induction evs as [|e evs IH]; [reflexivity|].
  destruct e; cbn; rewrite ?IH; reflexivity.
Qed.

(** X17. A request that returns a value has cost two round trips, or three:
    without a session, a creation and the request; with a session, the probe
    and the request, with a creation between them when the probe failed. *)
Theorem returned_request_round_trips (W : world) (methodname : string)
    (parameters : option (list pyval)) (s s' : state) (v : json) :
  SmiteClient._make_request W methodname parameters s = (Return v, s') ->
  let fetches := sites (new_events s s') in
  round_trips (new_events s s') = List.length fetches
  /\ if truthy (_session (self s))
     then fetches = [In_test_session; In_make_request]
          \/ fetches = [In_test_session; In_create_session; In_make_request]
     else fetches = [In_create_session; In_make_request].
Proof.
  intros H. cbv zeta. split; [apply round_trips_sites|].
  apply make_request_run in H as [_ H].
  revert H. generalize (new_events s s') as evs.
  generalize (self s') as c'. generalize (self s) as c.
  intros c c' evs H.
  inversion H as [e c1 evsE He|e c1 evsE He|c1 evsE u ans He Hres];
    subst; clear H.
  invert_shape He;
    rewrite ?sites_app, ?sites_session_tail, ?sites_request_tail;
    cbn [sites probe_events create_events request_events app];
    rewrite ?sites_session_tail, ?sites_request_tail;
    repeat match goal with T : truthy _ = _ |- _ => rewrite T; clear T end;
    cbn; tauto.
Qed.

Lemma make_request_round_trips (W : world) (methodname : string)
    (parameters : option (list pyval)) (s s' : state) (r : result json) :
  SmiteClient._make_request W methodname parameters s = (r, s') ->
  (round_trips (new_events s s') <= 3)%nat.
Proof.
  intros H. rewrite round_trips_sites.
  apply make_request_run in H as [_ H].
  revert H. generalize (new_events s s') as evs.
  generalize (self s') as c'. generalize (self s) as c.
  intros c c' evs H.
  inversion H as [e c1 evsE He|e c1 evsE He|c1 evsE u ans He]; subst; clear H;
    invert_shape He;
    rewrite ?sites_app, ?sites_session_tail, ?sites_request_tail;
    cbn [sites probe_events create_events request_events app];
    rewrite ?sites_session_tail, ?sites_request_tail; cbn; lia.
Qed.

Lemma round_trips_app (a b : list event) :
  round_trips (a ++ b) = (round_trips a + round_trips b)%nat.
Proof. unfold round_trips. now rewrite filter_app, length_app. Qed.

(** X18. Any sequence of public calls costs at most three round trips for
    each call. *)
Theorem public_calls_round_trips (W : world) (calls : list public_call)
    (s : state) :
  (round_trips (new_events s (snd (run_calls W calls s)))
   <= 3 * List.length calls)%nat.
Proof.
  revert s. induction calls as [|call rest IH]; intros s.
  - cbn. unfold new_events. now rewrite skipn_all.
  - cbn [run_calls].
    destruct (invoke W call s) as [r s1] eqn:E1.
    specialize (IH s1).
    destruct (run_calls W rest s1) as [rs s2] eqn:E2. cbn [snd] in *.
    rewrite (new_events_step _ _ _ _ _ _ _ _ E1 E2), round_trips_app.
    assert (Hfirst : (round_trips (new_events s s1) <= 3)%nat).
    { destruct (invoke_cases W call s) as [->|(m & p & Hm)].
      - cbn [invoke] in E1. rewrite ping_eq in E1. cbv zeta in E1.
        injection E1 as _ <-.
        erewrite new_events_app by reflexivity. cbn. lia.
      - rewrite Hm in E1. exact (make_request_round_trips _ _ _ _ _ _ E1). }
    cbn [List.length]. lia.
Qed.

(** ** Runs that show the hypotheses of the further properties at work *)

Ltac in_by_compute := vm_compute; repeat (first [left; reflexivity | right]).

Lemma request_4xx_raises_witness :
  let W := world_of (ok a_session) (ok probe_yes) (Resp_HTTPError 400) in
  let run := SmiteClient._make_request W "getgods" (Some [PInt 1]) client_123 in
  In (EvUrlopen In_make_request
        "http://api.smitegame.com/smiteapi.svc/getgodsJson/123/4c38971da9ac193cdaf169ffc4723902/0123456789ABCDEF0123456789ABCDEF/20240102030408/1"
        (Resp_HTTPError 400))
     (new_events client_123 (snd run))
  /\ fst run = Raise (NoResultError msg_request_400).
Proof.
  cbv zeta.
  assert (Hin : In (EvUrlopen In_make_request
        "http://api.smitegame.com/smiteapi.svc/getgodsJson/123/4c38971da9ac193cdaf169ffc4723902/0123456789ABCDEF0123456789ABCDEF/20240102030408/1"
        (Resp_HTTPError 400))
     (new_events client_123
        (snd (SmiteClient._make_request
                (world_of (ok a_session) (ok probe_yes) (Resp_HTTPError 400))
                "getgods" (Some [PInt 1]) client_123))))
    by in_by_compute.
  split; [exact Hin|].
  apply (request_4xx_raises _ _ _ _ _ _ _ _ (surjective_pairing _) Hin).
  now right.
Defined.

Lemma payload_decides_result_witness :
  let W := world_of (ok a_session) (ok probe_yes) (ok (JInt 0)) in
  let run := SmiteClient._make_request W "getgods" (Some [PInt 1]) client_123 in
  In (EvUrlopen In_make_request
        "http://api.smitegame.com/smiteapi.svc/getgodsJson/123/4c38971da9ac193cdaf169ffc4723902/0123456789ABCDEF0123456789ABCDEF/20240102030408/1"
        (ok (JInt 0)))
     (new_events client_123 (snd run))
  /\ fst run = Raise (NoResultError msg_no_data).
Proof.
  cbv zeta.
  assert (Hin : In (EvUrlopen In_make_request
        "http://api.smitegame.com/smiteapi.svc/getgodsJson/123/4c38971da9ac193cdaf169ffc4723902/0123456789ABCDEF0123456789ABCDEF/20240102030408/1"
        (ok (JInt 0)))
     (new_events client_123
        (snd (SmiteClient._make_request
                (world_of (ok a_session) (ok probe_yes) (ok (JInt 0)))
                "getgods" (Some [PInt 1]) client_123))))
    by in_by_compute.
  split; [exact Hin|].
  exact (payload_decides_result _ _ _ _ _ _ _ _ (surjective_pairing _) Hin).
Defined.

Lemma returned_value_is_payload_witness :
  let W := scenario_world a_clock in
  let run := SmiteClient._make_request W "getgods" (Some [PInt 1]) client_123 in
  run = (Return TestGod, snd run) /\ truthy TestGod = true.
Proof.
  cbv zeta.
  assert (Hrun : SmiteClient._make_request (scenario_world a_clock) "getgods"
                   (Some [PInt 1]) client_123
                 = (Return TestGod,
                    snd (SmiteClient._make_request (scenario_world a_clock)
                           "getgods" (Some [PInt 1]) client_123)))
    by (vm_compute; reflexivity).
  split; [exact Hrun|].
  exact (proj1 (returned_value_is_payload _ _ _ _ _ _ Hrun)).
Defined.

Lemma session_other_http_error_witness :
  let W := world_of (Resp_HTTPError 500) (ok probe_yes) (ok TestGod) in
  let run := SmiteClient._make_request W "getgods" (Some [PInt 1]) client_123 in
  In (EvUrlopen In_create_session
        "http://api.smitegame.com/smiteapi.svc//createsessionJson/123/904a98afa7822372a4679b6f8d3da009/20240102030406"
        (Resp_HTTPError 500))
     (new_events client_123 (snd run))
  /\ 500 <> 404
  /\ fst run = Raise (UnboundLocalError "html")
  /\ self (snd run) = self client_123.
Proof.
  cbv zeta.
  assert (Hin : In (EvUrlopen In_create_session
        "http://api.smitegame.com/smiteapi.svc//createsessionJson/123/904a98afa7822372a4679b6f8d3da009/20240102030406"
        (Resp_HTTPError 500))
     (new_events client_123
        (snd (SmiteClient._make_request
                (world_of (Resp_HTTPError 500) (ok probe_yes) (ok TestGod))
                "getgods" (Some [PInt 1]) client_123))))
    by in_by_compute.
  split; [exact Hin|]. split; [lia|].
  destruct (session_other_http_error _ _ _ _ _ _ _ _ _
              (surjective_pairing _) Hin (or_introl eq_refl))
    as (Hr & Hself & _); [lia|].
  split; assumption.
Defined.

Lemma transport_failure_escapes_witness :
  let W := world_of (ok a_session) Resp_URLError (ok TestGod) in
  let run := SmiteClient._make_request W "getgods" (Some [PInt 1])
               client_123_in_session in
  In (EvUrlopen In_test_session
        "http://api.smitegame.com/smiteapi.svc/testsessionJson/123/691ded3e1390484b95cab82ba7cd5d98/0123456789ABCDEF0123456789ABCDEF/20240102030405"
        Resp_URLError)
     (new_events client_123_in_session (snd run))
  /\ fst run = Raise URLError.
Proof.
  cbv zeta.
  assert (Hin : In (EvUrlopen In_test_session
        "http://api.smitegame.com/smiteapi.svc/testsessionJson/123/691ded3e1390484b95cab82ba7cd5d98/0123456789ABCDEF0123456789ABCDEF/20240102030405"
        Resp_URLError)
     (new_events client_123_in_session
        (snd (SmiteClient._make_request
                (world_of (ok a_session) Resp_URLError (ok TestGod))
                "getgods" (Some [PInt 1]) client_123_in_session))))
    by in_by_compute.
  split; [exact Hin|].
  exact (proj1 (transport_failure_escapes _ _ _ _ _ _ _ _ _
                  (surjective_pairing _) Hin (or_introl eq_refl))).
Defined.

Lemma smite_errors_are_logged_witness :
  let W := world_of (ok a_session) (ok probe_yes) (Resp_HTTPError 404) in
  let run := SmiteClient._make_request W "getgods" (Some [PInt 1]) client_123 in
  smite_message (fst run) = Some msg_request_404
  /\ exists before,
       new_events client_123 (snd run)
       = (before ++ [EvLog (Log_smite_error msg_request_404)])%list.
Proof.
  cbv zeta.
  assert (Hmsg : smite_message
                   (fst (SmiteClient._make_request
                           (world_of (ok a_session) (ok probe_yes)
                              (Resp_HTTPError 404))
                           "getgods" (Some [PInt 1]) client_123))
                 = Some msg_request_404) by (vm_compute; reflexivity).
  split; [exact Hmsg|].
  exact (smite_errors_are_logged _ _ _ _ _ _ _ (surjective_pairing _) Hmsg).
Defined.

Lemma request_sites_in_order_witness :
  let W := world_of (ok a_session) (ok probe_no) (ok TestGod) in
  let run := SmiteClient._make_request W "getgods" (Some [PInt 1])
               client_123_in_session in
  truthy (_session (self client_123_in_session)) = true
  /\ In (sites (new_events client_123_in_session (snd run)))
       [[]; [In_test_session]; [In_test_session; In_make_request];
        [In_test_session; In_create_session];
        [In_test_session; In_create_session; In_make_request]].
Proof.
  cbv zeta. split; [reflexivity|].
  apply (request_sites_in_order
           (world_of (ok a_session) (ok probe_no) (ok TestGod))
           "getgods" (Some [PInt 1]) client_123_in_session _ _
           (surjective_pairing _)).
  reflexivity.
Defined.

Lemma unusable_session_blocks_requests_witness :
  let W := scenario_world a_clock in
  let s := store TestGod client_123 in
  let run := run_calls W [Get_gods; Ping; Get_motd] s in
  truthy (_session (self s)) = true
  /\ session_id_of (_session (self s)) = None
  /\ self (snd run) = self s
  /\ sites (new_events s (snd run)) = [In_ping].
Proof.
  cbv zeta. split; [reflexivity|]. split; [reflexivity|].
  split; [|vm_compute; reflexivity].
  apply (unusable_session_blocks_requests (scenario_world a_clock)
           [Get_gods; Ping; Get_motd] (store TestGod client_123) _ _
           eq_refl eq_refl (surjective_pairing _)).
Defined.

Lemma parameters_matter_by_str_witness :
  params_strs (Some [PInt 42; PStr "a b"])
  = params_strs (Some [PStr "42"; PStr "a b"])
  /\ params_strs None = params_strs (Some [])
  /\ SmiteClient._make_request (scenario_world a_clock) "getqueuestats"
       (Some [PInt 42; PStr "a b"]) client_123
     = SmiteClient._make_request (scenario_world a_clock) "getqueuestats"
         (Some [PStr "42"; PStr "a b"]) client_123
  /\ SmiteClient._make_request (scenario_world a_clock) "getmotd" None
       client_123
     = SmiteClient._make_request (scenario_world a_clock) "getmotd" (Some [])
         client_123.
Proof.
  split; [reflexivity|]. split; [reflexivity|].
  split; apply parameters_matter_by_str; reflexivity.
Defined.

Lemma requested_urls_as_built_witness :
  let W := world_of (ok a_session) (ok probe_no) (ok TestGod) in
  let s := client_123_in_session in
  let run := SmiteClient._make_request W "getgods" (Some [PInt 1]) s in
  let url :=
    "http://api.smitegame.com/smiteapi.svc/getgodsJson/123/3910f72c88af1ec0adf90d6d98dfb4ad/0123456789ABCDEF0123456789ABCDEF/20240102030410/1" in
  In (EvUrlopen In_make_request url (ok TestGod)) (new_events s (snd run))
  /\ exists k session_id,
       session_id_of (_session (self (snd run))) = Some session_id
       /\ url = request_url (self (snd run)) "getgods"
                  (signature_at W (self (snd run)) "getgods" k) session_id
                  (timestamp_at W (S k)) (Some [PInt 1]).
Proof.
  cbv zeta.
  assert (Hin : In (EvUrlopen In_make_request
        "http://api.smitegame.com/smiteapi.svc/getgodsJson/123/3910f72c88af1ec0adf90d6d98dfb4ad/0123456789ABCDEF0123456789ABCDEF/20240102030410/1"
        (ok TestGod))
     (new_events client_123_in_session
        (snd (SmiteClient._make_request
                (world_of (ok a_session) (ok probe_no) (ok TestGod))
                "getgods" (Some [PInt 1]) client_123_in_session))))
    by in_by_compute.
  split; [exact Hin|].
  exact (requested_urls_as_built _ _ _ _ _ _ _ _ _ (surjective_pairing _) Hin).
Defined.

Lemma request_url_has_no_space_witness :
  let W := scenario_world a_clock in
  let s := client_123_in_session in
  let run := SmiteClient._make_request W "getplayer" (Some [PStr "a b"]) s in
  let url :=
    "http://api.smitegame.com/smiteapi.svc/getplayerJson/123/e50fc1c78e2ff49df8c812deb4dd8ee5/0123456789ABCDEF0123456789ABCDEF/20240102030408/a%20b" in
  In (EvUrlopen In_make_request url (ok TestGod)) (new_events s (snd run))
  /\ spaces url = 0%nat.
Proof.
  cbv zeta.
  assert (Hin : In (EvUrlopen In_make_request
        "http://api.smitegame.com/smiteapi.svc/getplayerJson/123/e50fc1c78e2ff49df8c812deb4dd8ee5/0123456789ABCDEF0123456789ABCDEF/20240102030408/a%20b"
        (ok TestGod))
     (new_events client_123_in_session
        (snd (SmiteClient._make_request (scenario_world a_clock)
                "getplayer" (Some [PStr "a b"]) client_123_in_session))))
    by in_by_compute.
  split; [exact Hin|].
  exact (request_url_has_no_space _ _ _ _ _ _ _ _ (surjective_pairing _) Hin).
Defined.

Lemma switch_keeps_session_witness :
  let W := uniform_world a_clock probe_yes in
  let s := client_123_in_session in
  let switched := snd (SmiteClient._switch_endpoint (PEndpoint XBOX) s) in
  let run := SmiteClient._make_request W "getgods" (Some [PInt 1]) switched in
  let url :=
    "http://api.xbox.smitegame.com/smiteapi.svc/testsessionJson/123/691ded3e1390484b95cab82ba7cd5d98/0123456789ABCDEF0123456789ABCDEF/20240102030405" in
  In (EvUrlopen In_test_session url (ok probe_yes))
     (new_events switched (snd run))
  /\ _session (self switched) = a_session.
Proof.
  cbv zeta.
  assert (Hin : In (EvUrlopen In_test_session
        "http://api.xbox.smitegame.com/smiteapi.svc/testsessionJson/123/691ded3e1390484b95cab82ba7cd5d98/0123456789ABCDEF0123456789ABCDEF/20240102030405"
        (ok probe_yes))
     (new_events
        (snd (SmiteClient._switch_endpoint (PEndpoint XBOX)
                client_123_in_session))
        (snd (SmiteClient._make_request (uniform_world a_clock probe_yes)
                "getgods" (Some [PInt 1])
                (snd (SmiteClient._switch_endpoint (PEndpoint XBOX)
                        client_123_in_session))))))
    by in_by_compute.
  split; [exact Hin|].
  exact (proj1 (switch_keeps_session (uniform_world a_clock probe_yes) XBOX
                  "getgods" (Some [PInt 1]) client_123_in_session _ _ _ _
                  (surjective_pairing _) Hin)).
Defined.

Lemma now_timestamp_14_digits_witness :
  valid_datetime (utcnow (scenario_world a_clock) (ticks client_123)) = true
  /\ exists timestamp,
       SmiteClient._create_now_timestamp (scenario_world a_clock) client_123
       = (Return timestamp, tick client_123)
       /\ String.length timestamp = 14%nat
       /\ forallb is_digit (list_ascii_of_string timestamp) = true.
Proof.
  split; [reflexivity|].
  apply now_timestamp_14_digits. reflexivity.
Defined.

Lemma refused_creation_is_stored_witness :
  let W := uniform_world a_clock TestGod in
  let run := SmiteClient._make_request W "getgods" (Some [PInt 1]) client_123 in
  let url :=
    "http://api.smitegame.com/smiteapi.svc//createsessionJson/123/904a98afa7822372a4679b6f8d3da009/20240102030406" in
  In (EvUrlopen In_create_session url (ok TestGod))
     (new_events client_123 (snd run))
  /\ session_id_of TestGod = None
  /\ (fst run = Raise AttributeError \/ fst run = Raise TypeError)
  /\ self (snd run) = with_session TestGod (self client_123).
Proof.
  cbv zeta.
  assert (Hin : In (EvUrlopen In_create_session
        "http://api.smitegame.com/smiteapi.svc//createsessionJson/123/904a98afa7822372a4679b6f8d3da009/20240102030406"
        (ok TestGod))
     (new_events client_123
        (snd (SmiteClient._make_request (uniform_world a_clock TestGod)
                "getgods" (Some [PInt 1]) client_123))))
    by in_by_compute.
  split; [exact Hin|]. split; [reflexivity|].
  destruct (refused_creation_is_stored _ _ _ _ _ _ _ _
              (surjective_pairing _) Hin eq_refl) as (Hr & Hself & _).
  split; assumption.
Defined.

Lemma new_session_is_used_witness :
  let W := world_of (ok a_session) (ok probe_yes) (ok TestGod) in
  let run := SmiteClient._make_request W "getgods" (Some [PInt 1]) client_123 in
  let url :=
    "http://api.smitegame.com/smiteapi.svc//createsessionJson/123/904a98afa7822372a4679b6f8d3da009/20240102030406" in
  In (EvUrlopen In_create_session url (ok a_session))
     (new_events client_123 (snd run))
  /\ session_id_of a_session = Some "0123456789ABCDEF0123456789ABCDEF"
  /\ exists k answer,
       In (EvUrlopen In_make_request
             (request_url (self client_123) "getgods"
                (signature_at W (self client_123) "getgods" k)
                "0123456789ABCDEF0123456789ABCDEF"
                (timestamp_at W (S k)) (Some [PInt 1])) answer)
          (new_events client_123 (snd run)).
Proof.
  cbv zeta.
  assert (Hin : In (EvUrlopen In_create_session
        "http://api.smitegame.com/smiteapi.svc//createsessionJson/123/904a98afa7822372a4679b6f8d3da009/20240102030406"
        (ok a_session))
     (new_events client_123
        (snd (SmiteClient._make_request
                (world_of (ok a_session) (ok probe_yes) (ok TestGod))
                "getgods" (Some [PInt 1]) client_123))))
    by in_by_compute.
  split; [exact Hin|]. split; [reflexivity|].
  exact (new_session_is_used _ _ _ _ _ _ _ _ _
           (surjective_pairing _) Hin eq_refl).
Defined.

Lemma returned_request_round_trips_witness :
  let W := world_of (ok a_session) (ok probe_no) (ok TestGod) in
  let s := client_123_in_session in
  let run := SmiteClient._make_request W "getgods" (Some [PInt 1]) s in
  run = (Return TestGod, snd run)
  /\ sites (new_events s (snd run))
     = [In_test_session; In_create_session; In_make_request]
  /\ round_trips (new_events s (snd run))
     = List.length (sites (new_events s (snd run))).
Proof.
  cbv zeta.
  assert (Hrun : SmiteClient._make_request
                   (world_of (ok a_session) (ok probe_no) (ok TestGod))
                   "getgods" (Some [PInt 1]) client_123_in_session
                 = (Return TestGod,
                    snd (SmiteClient._make_request
                           (world_of (ok a_session) (ok probe_no) (ok TestGod))
                           "getgods" (Some [PInt 1]) client_123_in_session)))
    by (vm_compute; reflexivity).
  split; [exact Hrun|]. split; [vm_compute; reflexivity|].
  exact (proj1 (returned_request_round_trips _ _ _ _ _ _ Hrun)).
Defined.
